(** * Sigillum: the front end (utils.ts, main.ts) and the signature engine

    A shallow embedding of the TypeScript front end of Sigillum and of the
    PDF signature engine it drives, with the properties of the specification
    stated and proved over it.

    - JavaScript strings are sequences of UTF-16 code units ([list N]).
    - The DOM is a store of element states indexed by handles; handlers run
      in a state-and-exception monad over the page ([World]).
    - A byte count is an integer-valued [number]; the arithmetic of
      [formatFileSize] on it is exact and is carried out in [Q]. *)

From Stdlib Require Import Ascii String QArith Qabs Qround Init.Byte.
From stdpp Require Import gmap strings list fin_maps.

Local Open Scope Z_scope.

(** ** JavaScript strings *)

Module JS.

(** A string value: its UTF-16 code units. *)
Definition jsstring : Type := list N.

(** A literal of the source, all of whose characters are ASCII. *)
Definition str (s : string) : jsstring :=
  map N_of_ascii (list_ascii_of_string s).

(** The double quote character, U+0022. *)
Definition dq : jsstring := [34%N].

(** ToBoolean on a string: only the empty string is falsy. *)
Definition truthy (s : jsstring) : bool :=
  match s with [] => false | _ :: _ => true end.

(** WhiteSpace and LineTerminator code points of ECMAScript, the characters
    that [String.prototype.trim] strips. *)
Definition is_white_space (c : N) : bool :=
  (   (9 <=? c) && (c <=? 13)          (* TAB, LF, VT, FF, CR *)
   || (c =? 32)                        (* SP *)
   || (c =? 160)                       (* NBSP *)
   || (c =? 5760)                      (* U+1680 *)
   || ((8192 <=? c) && (c <=? 8202))   (* U+2000 .. U+200A *)
   || (c =? 8232) || (c =? 8233)       (* LS, PS *)
   || (c =? 8239)                      (* U+202F *)
   || (c =? 8287)                      (* U+205F *)
   || (c =? 12288)                     (* U+3000 *)
   || (c =? 65279)                     (* U+FEFF *)
  )%N.

Fixpoint trim_start (s : jsstring) : jsstring :=
  match s with
  | [] => []
  | c :: s' => if is_white_space c then trim_start s' else s
  end.

Definition trim_end (s : jsstring) : jsstring :=
  rev (trim_start (rev s)).

(** [s.trim()] *)
Definition trim (s : jsstring) : jsstring := trim_end (trim_start s).

Fixpoint starts_with (p s : jsstring) : bool :=
  match p, s with
  | [], _ => true
  | _ :: _, [] => false
  | a :: p', b :: s' => (a =? b)%N && starts_with p' s'
  end.

(** [s.includes(p)] *)
Fixpoint includes (s p : jsstring) : bool :=
  starts_with p s ||
  match s with
  | [] => false
  | _ :: s' => includes s' p
  end.

(** [s.endsWith(p)] *)
Definition ends_with (s p : jsstring) : bool :=
  starts_with (rev p) (rev s).

(** The decimal digits of a natural number, most significant first, ["0"]
    for zero. The recursion is on the number of binary digits, which
    bounds the number of decimal ones. *)
Fixpoint digits_fuel (fuel : nat) (n : N) : jsstring :=
  match fuel with
  | O => []
  | S fuel' =>
      if (n <? 10)%N then [(48 + n)%N]
      else digits_fuel fuel' (n / 10)%N ++ [(48 + n mod 10)%N]
  end.

Definition digits (n : N) : jsstring :=
  digits_fuel (S (N.to_nat (N.log2 n))) n.

(** Number::toString on an integer-valued number below 10^21 in
    magnitude: decimal digits, with a minus sign when negative. *)
Definition number_to_string (n : Z) : jsstring :=
  if n <? 0 then str "-" ++ digits (Z.to_N (- n)) else digits (Z.to_N n).

(** [x.toFixed(1)] for a finite [x] below 10^21 in magnitude: with
    [n] the integer nearest to [10 * |x|] (the larger one on a tie), the
    digits of [n], padded to two, with a point before the last. *)
Definition to_fixed_1 (x : Q) : jsstring :=
  let s := if Qlt_le_dec x 0 then str "-" else [] in
  let x := Qabs x in
  let n := Z.to_N (Qfloor (x * 10 + (1 # 2))%Q) in
  let m := digits n in
  let m := if (length m <=? 1)%nat then str "0" ++ m else m in
  let k := length m in
  s ++ take (k - 1) m ++ str "." ++ drop (k - 1) m.

End JS.

Import JS.

(** ** utils.ts: formatFileSize *)

Definition formatFileSize (bytes : Z) : jsstring :=
  if bytes <? 1024 then number_to_string bytes ++ str " B"
  else if bytes <? 1024 * 1024 then
    to_fixed_1 (inject_Z bytes / 1024)%Q ++ str " KB"
  else to_fixed_1 (inject_Z bytes / (1024 * 1024))%Q ++ str " MB".

(** ** The page: application state, DOM and the engine behind [invoke] *)

(** The value of a rejected promise or a thrown exception, as the text
    that a template literal makes of it. *)
Definition Err : Type := jsstring.

(** A [File] picked or dropped by the user. Reading it may fail. *)
Record File := {
  file_name : jsstring;
  file_type : jsstring;
  file_size : Z;
  file_arrayBuffer : Err + list byte;
}.

(** The content of an element, by the property that last set it. *)
Inductive Content :=
| Text (s : jsstring)
| Html (s : jsstring).

(** An element, by its handle. Elements that have an [id] attribute are
    handled by it, so that [getElement id] is [id]. *)
Definition node : Type := string.

Record Element := {
  classList : gset string;
  content : Content;
  disabled : bool;
  value : jsstring;
  files : option (list File);
  parentElement : option node;
  children : list node;
}.

Global Instance Element_inhabited : Inhabited Element :=
  populate {| classList := ∅; content := Text []; disabled := false;
              value := []; files := None; parentElement := None;
              children := [] |}.

Definition set_classList (c : gset string) (e : Element) : Element :=
  {| classList := c; content := content e; disabled := disabled e;
     value := value e; files := files e; parentElement := parentElement e;
     children := children e |}.

Definition set_content (c : Content) (e : Element) : Element :=
  {| classList := classList e; content := c; disabled := disabled e;
     value := value e; files := files e; parentElement := parentElement e;
     children := children e |}.

Definition set_disabled (b : bool) (e : Element) : Element :=
  {| classList := classList e; content := content e; disabled := b;
     value := value e; files := files e; parentElement := parentElement e;
     children := children e |}.

(** main.ts: the request and the responses of the engine commands. *)
Record SignatureInfo := {
  signer_name : jsstring;
  timestamp : jsstring;
  extra : jsstring;
  signature : jsstring;
}.

Record SignPdfRequest := {
  pdf_data : list byte;
  name : jsstring;
  req_extra : jsstring;
}.

Record SignPdfResponse := {
  signed_pdf : list byte;
  signature_info : SignatureInfo;
}.

Record VerifyPdfResponse := {
  is_signed : bool;
  v_signature_info : option SignatureInfo;
  message : jsstring;
}.

(** The commands sent with [invoke]. *)
Inductive Command :=
| has_key
| get_public_key
| generate_keypair
| import_key (privateKeyPem publicKeyPem : jsstring)
| export_key
| sign_pdf (request : SignPdfRequest)
| verify_pdf (pdfData : list byte).

(** How the engine process answers each command at the time a handler
    runs. A handler sends at most one command that changes the engine. *)
Record Backend := {
  on_has_key : Err + bool;
  on_get_public_key : Err + jsstring;
  on_generate_keypair : Err + jsstring;
  on_import_key : jsstring -> jsstring -> Err + jsstring;
  on_export_key : Err + jsstring;
  on_sign_pdf : SignPdfRequest -> Err + SignPdfResponse;
  on_verify_pdf : list byte -> Err + VerifyPdfResponse;
}.

(** What a handler does to the world outside the page state. *)
Inductive Effect :=
| Invoked (c : Command)
| ScrollIntoView (n : node)
| PreventDefault
| Click (n : node)
| SetTimeoutHideModal (overlay : node) (duration : Z).

(** main.ts: [const state = { ... }] *)
Record State := {
  hasKey : bool;
  currentPublicKey : jsstring;
  selectedFile : option File;
  signedPdfData : option (list byte);
  verifySelectedFile : option File;
  currentTab : jsstring;
}.

Record World := {
  state : State;
  dom : gmap node Element;
  backend : Backend;
  effects : list Effect;
}.

Definition with_state (s : State) (w : World) : World :=
  {| state := s; dom := dom w; backend := backend w; effects := effects w |}.

Definition with_dom (d : gmap node Element) (w : World) : World :=
  {| state := state w; dom := d; backend := backend w; effects := effects w |}.

Definition with_effect (e : Effect) (w : World) : World :=
  {| state := state w; dom := dom w; backend := backend w;
     effects := effects w ++ [e] |}.

(** *** The monad of handlers: state, and exceptions that keep the state

    A handler is followed from its event to its end: what it wrote before
    an exception stays written, and no other event is taken at its
    [await]s. *)

Definition M (A : Type) : Type := World -> World * (Err + A).

Definition ret {A} (a : A) : M A := fun w => (w, inr a).

Definition bind {A B} (m : M A) (k : A -> M B) : M B :=
  fun w =>
    match m w with
    | (w', inr a) => k a w'
    | (w', inl e) => (w', inl e)
    end.

Definition throw {A} (e : Err) : M A := fun w => (w, inl e).

(** [try { body } catch (error) { handler }] *)
Definition try_catch {A} (body : M A) (handler : Err -> M A) : M A :=
  fun w =>
    match body w with
    | (w', inl e) => handler e w'
    | r => r
    end.

(** [await p] of a promise that is already settled. *)
Definition await {A} (r : Err + A) : M A :=
  match r with inl e => throw e | inr a => ret a end.

Notation "'let*' x := m 'in' k" := (bind m (fun x => k))
  (at level 10, x name, m at level 200, k at level 200).
Notation "m ;; k" := (bind m (fun _ => k))
  (at level 100, k at level 200, right associativity).

Definition get_state : M State := fun w => (w, inr (state w)).
Definition put_state (s : State) : M unit := fun w => (with_state s w, inr tt).
Definition get_elem (n : node) : M Element := fun w => (w, inr (dom w !!! n)).
(** The world after the element [n] was rewritten by [f]. *)
Definition write_elem (n : node) (f : Element -> Element) (w : World) : World :=
  with_dom (<[n := f (dom w !!! n)]> (dom w)) w.

Definition modify_elem (n : node) (f : Element -> Element) : M unit :=
  fun w => (write_elem n f w, inr tt).
Definition effect (e : Effect) : M unit := fun w => (with_effect e w, inr tt).

(** [invoke(cmd, args)]: the command goes out, the engine's answer is the
    settled promise. *)
Definition invoke {A} (c : Command) (answer : Backend -> Err + A) : M A :=
  fun w => await (answer (backend w)) (with_effect (Invoked c) w).

(** The final world of a handler started from an event. *)
Definition run {A} (m : M A) (w : World) : World := fst (m w).

(** *** Element properties and methods *)

Definition classList_add (n : node) (c : string) : M unit :=
  modify_elem n (fun e => set_classList ({[c]} ∪ classList e) e).

Definition classList_remove (n : node) (c : string) : M unit :=
  modify_elem n (fun e => set_classList (classList e ∖ {[c]}) e).

(** [classList.toggle(c, force)] *)
Definition classList_toggle (n : node) (c : string) (force : bool) : M unit :=
  if force then classList_add n c else classList_remove n c.

Definition set_textContent (n : node) (s : jsstring) : M unit :=
  modify_elem n (set_content (Text s)).

Definition set_innerHTML (n : node) (s : jsstring) : M unit :=
  modify_elem n (set_content (Html s)).

Definition set_disabled_of (n : node) (b : bool) : M unit :=
  modify_elem n (set_disabled b).

Definition get_textContent (inner_text : jsstring -> jsstring) (n : node)
  : M jsstring :=
  let* e := get_elem n in
  ret (match content e with Text s => s | Html h => inner_text h end).

(** [root.querySelector("." + c)]: the first descendant of [root], in
    document order, that carries the class [c]. [todo] is the rest of the
    depth-first walk. *)
Fixpoint first_with_class (fuel : nat) (d : gmap node Element)
    (todo : list node) (c : string) : option node :=
  match fuel with
  | O => None
  | S fuel' =>
      match todo with
      | [] => None
      | n :: rest =>
          if decide (c ∈ classList (d !!! n)) then Some n
          else first_with_class fuel' d (children (d !!! n) ++ rest) c
      end
  end.

Definition querySelector_class (root : node) (c : string) : M (option node) :=
  fun w =>
    (w, inr (first_with_class (size (dom w)) (dom w)
               (children (dom w !!! root)) c)).

(** ** utils.ts *)

Section Utils.

(** The text of the fragment that the browser parses from markup: what
    [textContent] reads after [innerHTML] was set. *)
Variable inner_text : jsstring -> jsstring.

Definition showModal (modalOverlay modalTitle modalContent : node)
    (title content : jsstring) : M unit :=
  set_textContent modalTitle title ;;
  set_innerHTML modalContent content ;;
  classList_remove modalOverlay "hidden".

Definition hideModal (modalOverlay : node) : M unit :=
  classList_add modalOverlay "hidden".

Definition readFileAsBytes (file : File) : M (list byte) :=
  await (file_arrayBuffer file).

Definition setButtonLoading (button : node) (loading : bool)
    (loadingText : jsstring) : M unit :=
  set_disabled_of button loading ;;
  let* html :=
    (if loading
     then ret (str "<span class=" ++ dq ++ str "loading" ++ dq
               ++ str "></span>" ++ loadingText)
     else let* t := get_textContent inner_text button in
          ret (if truthy t then t else [])) in
  set_innerHTML button html.

Definition resetButton (button : node) (originalText : jsstring) : M unit :=
  set_disabled_of button false ;;
  set_textContent button originalText.

Definition getElement (id : string) : node := id.

Definition toggleDropZoneContent (dropZone : node) (showContent : bool)
  : M unit :=
  let* content := querySelector_class dropZone "drop-zone-content" in
  match content with
  | Some c => classList_toggle c "hidden" (negb showContent)
  | None => ret tt
  end.

Definition when_elem (n : option node) (f : node -> M unit) : M unit :=
  match n with Some n => f n | None => ret tt end.

Definition handleFileSelect (file : File) (onFileSelect : File -> M unit)
    (onFileInfo fileNameEl fileSizeEl : option node) : M unit :=
  if negb (includes (file_type file) (str "pdf")) then ret tt
  else
    onFileSelect file ;;
    when_elem onFileInfo (fun n => classList_remove n "hidden") ;;
    when_elem fileNameEl (fun n => set_textContent n (file_name file)) ;;
    when_elem fileSizeEl
      (fun n => set_textContent n (formatFileSize (file_size file))) ;;
    let* dropZone :=
      match onFileInfo with
      | Some n => let* e := get_elem n in ret (parentElement e)
      | None => ret None
      end in
    when_elem dropZone (fun z => toggleDropZoneContent z false).

(** The listeners that [setupDropZone] registers. *)

Definition setupDropZone_click (fileInput : node) : M unit :=
  effect (Click fileInput).

Definition setupDropZone_dragover (dropZone : node) : M unit :=
  effect PreventDefault ;;
  classList_add dropZone "drag-over".

Definition setupDropZone_dragleave (dropZone : node) : M unit :=
  classList_remove dropZone "drag-over".

(** [dropped] is [e.dataTransfer?.files]. *)
Definition setupDropZone_drop (dropZone : node)
    (onFileSelect : File -> M unit)
    (onFileInfo fileNameEl fileSizeEl : option node)
    (dropped : option (list File)) : M unit :=
  effect PreventDefault ;;
  classList_remove dropZone "drag-over" ;;
  match dropped with
  | Some (file :: _) =>
      handleFileSelect file onFileSelect onFileInfo fileNameEl fileSizeEl
  | _ => ret tt
  end.

Definition setupDropZone_change (fileInput : node)
    (onFileSelect : File -> M unit)
    (onFileInfo fileNameEl fileSizeEl : option node) : M unit :=
  let* input := get_elem fileInput in
  match files input with
  | Some (file :: _) =>
      handleFileSelect file onFileSelect onFileInfo fileNameEl fileSizeEl
  | _ => ret tt
  end.

Definition showTemporarySuccess (modalOverlay modalTitle modalContent : node)
    (message : jsstring) (duration : Z) : M unit :=
  showModal modalOverlay modalTitle modalContent (str "Success")
    (str "<p class=" ++ dq ++ str "message success" ++ dq ++ str ">"
     ++ message ++ str "</p>") ;;
  effect (SetTimeoutHideModal modalOverlay duration).

Definition showError (modalOverlay modalTitle modalContent : node)
    (message : jsstring) : M unit :=
  showModal modalOverlay modalTitle modalContent (str "Error")
    (str "<p class=" ++ dq ++ str "message error" ++ dq ++ str ">"
     ++ message ++ str "</p>").

End Utils.

(** ** main.ts *)

(** [const elements = { ... }]: the handles fetched by [getElement]. *)
Module elements.
Definition btnGenerateKey : node := getElement "btn-generate-key".
Definition btnImportKey : node := getElement "btn-import-key".
Definition btnExportKey : node := getElement "btn-export-key".
Definition keySection : node := getElement "key-section".
Definition publicKeyContent : node := getElement "public-key-content".
Definition noKeyMessage : node := getElement "no-key-message".
Definition signForm : node := getElement "sign-form".
Definition signerNameInput : node := getElement "signer-name".
Definition extraTextInput : node := getElement "extra-text".
Definition dropZone : node := getElement "drop-zone".
Definition fileInput : node := getElement "file-input".
Definition fileInfo : node := getElement "file-info".
Definition fileName : node := getElement "file-name".
Definition fileSize : node := getElement "file-size".
Definition btnSign : node := getElement "btn-sign".
Definition resultSection : node := getElement "result-section".
Definition resultName : node := getElement "result-name".
Definition resultTimestamp : node := getElement "result-timestamp".
Definition resultExtra : node := getElement "result-extra".
Definition resultSignature : node := getElement "result-signature".
Definition btnDownload : node := getElement "btn-download".
Definition modalOverlay : node := getElement "modal-overlay".
Definition modal : node := getElement "modal".
Definition modalTitle : node := getElement "modal-title".
Definition modalContent : node := getElement "modal-content".
Definition modalClose : node := getElement "modal-close".
Definition tabSign : node := getElement "tab-sign".
Definition tabVerify : node := getElement "tab-verify".
Definition signSection : node := getElement "sign-section".
Definition verifySection : node := getElement "verify-section".
Definition verifyDropZone : node := getElement "verify-drop-zone".
Definition verifyFileInput : node := getElement "verify-file-input".
Definition verifyFileInfo : node := getElement "verify-file-info".
Definition verifyFileName : node := getElement "verify-file-name".
Definition verifyFileSize : node := getElement "verify-file-size".
Definition btnVerify : node := getElement "btn-verify".
Definition verifyResult : node := getElement "verify-result".
Definition verifySuccess : node := getElement "verify-success".
Definition verifyError : node := getElement "verify-error".
Definition verifyMessage : node := getElement "verify-message".
Definition verifyErrorMessage : node := getElement "verify-error-message".
Definition verifyDetails : node := getElement "verify-details".
Definition verifyName : node := getElement "verify-name".
Definition verifyTimestamp : node := getElement "verify-timestamp".
Definition verifyExtra : node := getElement "verify-extra".
Definition verifySignature : node := getElement "verify-signature".
End elements.

(** [const { modalOverlay, modalTitle, modalContent, btnSign, btnVerify }
    = elements] *)
Definition modalOverlay : node := elements.modalOverlay.
Definition modalTitle : node := elements.modalTitle.
Definition modalContent : node := elements.modalContent.
Definition btnSign : node := elements.btnSign.
Definition btnVerify : node := elements.btnVerify.

Definition set_hasKey (b : bool) (s : State) : State :=
  {| hasKey := b; currentPublicKey := currentPublicKey s;
     selectedFile := selectedFile s; signedPdfData := signedPdfData s;
     verifySelectedFile := verifySelectedFile s; currentTab := currentTab s |}.

Definition set_currentPublicKey (k : jsstring) (s : State) : State :=
  {| hasKey := hasKey s; currentPublicKey := k;
     selectedFile := selectedFile s; signedPdfData := signedPdfData s;
     verifySelectedFile := verifySelectedFile s; currentTab := currentTab s |}.

Definition set_selectedFile (f : option File) (s : State) : State :=
  {| hasKey := hasKey s; currentPublicKey := currentPublicKey s;
     selectedFile := f; signedPdfData := signedPdfData s;
     verifySelectedFile := verifySelectedFile s; currentTab := currentTab s |}.

Definition set_signedPdfData (d : option (list byte)) (s : State) : State :=
  {| hasKey := hasKey s; currentPublicKey := currentPublicKey s;
     selectedFile := selectedFile s; signedPdfData := d;
     verifySelectedFile := verifySelectedFile s; currentTab := currentTab s |}.

Definition set_verifySelectedFile (f : option File) (s : State) : State :=
  {| hasKey := hasKey s; currentPublicKey := currentPublicKey s;
     selectedFile := selectedFile s; signedPdfData := signedPdfData s;
     verifySelectedFile := f; currentTab := currentTab s |}.

Definition modify_state (f : State -> State) : M unit :=
  let* s := get_state in put_state (f s).

(** [x || "(none)"] on strings *)
Definition or_else (x dflt : jsstring) : jsstring :=
  if truthy x then x else dflt.

Section Main.

Variable inner_text : jsstring -> jsstring.

Definition updateKeyUI (hasKey : bool) : M unit :=
  classList_toggle elements.btnGenerateKey "hidden" hasKey ;;
  classList_toggle elements.btnImportKey "hidden" hasKey ;;
  classList_toggle elements.btnExportKey "hidden" (negb hasKey) ;;
  classList_toggle elements.keySection "hidden" (negb hasKey) ;;
  (let* s := get_state in
   set_textContent elements.publicKeyContent
     (if hasKey then currentPublicKey s else str "No key loaded")) ;;
  classList_toggle elements.noKeyMessage "hidden" hasKey ;;
  classList_toggle elements.signForm "hidden" (negb hasKey).

(** [!state.selectedFile || !elements.signerNameInput.value.trim()] *)
Definition sign_inputs_missing : M bool :=
  let* s := get_state in
  let* input := get_elem elements.signerNameInput in
  ret (negb (bool_decide (is_Some (selectedFile s)))
       || negb (truthy (trim (value input)))).

Definition updateSignButton : M unit :=
  let* missing := sign_inputs_missing in
  set_disabled_of btnSign missing.

Definition updateVerifyButton : M unit :=
  let* s := get_state in
  set_disabled_of btnVerify (negb (bool_decide (is_Some (verifySelectedFile s)))).

Definition displaySignResult (response : SignPdfResponse) : M unit :=
  let info := signature_info response in
  set_textContent elements.resultName (signer_name info) ;;
  set_textContent elements.resultTimestamp (timestamp info) ;;
  set_textContent elements.resultExtra (or_else (extra info) (str "(none)")) ;;
  set_textContent elements.resultSignature (signature info) ;;
  classList_remove elements.resultSection "hidden" ;;
  effect (ScrollIntoView elements.resultSection).

Definition generateKeypair : M unit :=
  showModal modalOverlay modalTitle modalContent (str "Generate Keypair")
    (str "<p class=" ++ dq ++ str "message info" ++ dq
     ++ str ">Generating RSA keypair...</p>") ;;
  try_catch
    (let* publicKey := invoke generate_keypair on_generate_keypair in
     modify_state (set_currentPublicKey publicKey) ;;
     modify_state (set_hasKey true) ;;
     hideModal modalOverlay ;;
     updateKeyUI true ;;
     showTemporarySuccess modalOverlay modalTitle modalContent
       (str "Keypair generated successfully!") 2000)
    (fun error =>
       hideModal modalOverlay ;;
       showError modalOverlay modalTitle modalContent
         (str "Failed to generate keypair: " ++ error)).

Definition importKey (privateKeyPem publicKeyPem : jsstring) : M unit :=
  try_catch
    (let* publicKey :=
       invoke (import_key privateKeyPem publicKeyPem)
         (fun b => on_import_key b privateKeyPem publicKeyPem) in
     modify_state (set_currentPublicKey publicKey) ;;
     modify_state (set_hasKey true) ;;
     hideModal modalOverlay ;;
     updateKeyUI true ;;
     showTemporarySuccess modalOverlay modalTitle modalContent
       (str "Key imported successfully!") 2000)
    (fun error =>
       hideModal modalOverlay ;;
       showError modalOverlay modalTitle modalContent
         (str "Failed to import key: " ++ error)).

Definition signPdf : M unit :=
  let* missing := sign_inputs_missing in
  if missing then
    showError modalOverlay modalTitle modalContent
      (str "Please enter your name and select a PDF file.")
  else
    try_catch
      (setButtonLoading inner_text btnSign true (str "Signing...") ;;
       let* s := get_state in
       let* pdfBytes :=
         match selectedFile s with
         | Some file => readFileAsBytes file
         | None => throw (str "TypeError")
         end in
       let* nameInput := get_elem elements.signerNameInput in
       let* extraInput := get_elem elements.extraTextInput in
       let request :=
         {| pdf_data := pdfBytes;
            name := trim (value nameInput);
            req_extra := trim (value extraInput) |} in
       let* response := invoke (sign_pdf request)
                          (fun b => on_sign_pdf b request) in
       modify_state (set_signedPdfData (Some (signed_pdf response))) ;;
       displaySignResult response ;;
       resetButton btnSign (str "Sign PDF"))
      (fun error =>
         showError modalOverlay modalTitle modalContent
           (str "Failed to sign PDF: " ++ error) ;;
         resetButton btnSign (str "Sign PDF")).

Definition verifyPdf : M unit :=
  let* s := get_state in
  match verifySelectedFile s with
  | None => ret tt
  | Some file =>
    try_catch
      (setButtonLoading inner_text btnVerify true (str "Verifying...") ;;
       let* pdfBytes := readFileAsBytes file in
       let* response := invoke (verify_pdf pdfBytes)
                          (fun b => on_verify_pdf b pdfBytes) in
       classList_remove elements.verifyResult "hidden" ;;
       match is_signed response, v_signature_info response with
       | true, Some info =>
           classList_remove elements.verifySuccess "hidden" ;;
           classList_add elements.verifyError "hidden" ;;
           classList_remove elements.verifyDetails "hidden" ;;
           set_textContent elements.verifyMessage (message response) ;;
           set_textContent elements.verifyName (signer_name info) ;;
           set_textContent elements.verifyTimestamp (timestamp info) ;;
           set_textContent elements.verifyExtra
             (or_else (extra info) (str "(none)")) ;;
           set_textContent elements.verifySignature (signature info)
       | _, _ =>
           classList_add elements.verifySuccess "hidden" ;;
           classList_remove elements.verifyError "hidden" ;;
           classList_add elements.verifyDetails "hidden" ;;
           set_textContent elements.verifyErrorMessage (message response)
       end ;;
       resetButton btnVerify (str "Verify PDF") ;;
       effect (ScrollIntoView elements.verifyResult))
      (fun error =>
         showError modalOverlay modalTitle modalContent
           (str "Failed to verify PDF: " ++ error) ;;
         resetButton btnVerify (str "Verify PDF"))
  end.

(** The callbacks that [initDropZones] hands to [setupDropZone]. *)
Definition onSignFileSelect (file : File) : M unit :=
  modify_state (set_selectedFile (Some file)) ;;
  updateSignButton.

Definition onVerifyFileSelect (file : File) : M unit :=
  modify_state (set_verifySelectedFile (Some file)) ;;
  updateVerifyButton.

End Main.

(** ** The signature engine

    The engine answers the commands of [invoke] from another process; its
    code is not part of the front end. It is modelled here from the
    specification (sections 3 and 4): key store, canonicalizer, signer and
    verifier, over the two interfaces that the specification leaves open,
    the cryptographic primitives and the byte format of a signed document. *)

Module Engine.

(** Modelled from the spec: the digest algorithm identifier of a record,
    SHA-256 or stronger (section 4.4, step 4). *)
Inductive DigestAlgorithm := SHA256 | SHA384 | SHA512.

(** Modelled from the spec: the signature algorithm identifier of a
    record, RSA with PSS or with PKCS#1 v1.5 padding (section 4.4, step 5). *)
Inductive SignatureAlgorithm := RSA_PSS | RSA_PKCS1_v15.

(** Modelled from the spec: the SignatureRecord of section 3. Text is
    UTF-8, held as a [string] of bytes. *)
Record SignatureRecord := {
  signerName : string;
  timestamp : string;
  extra : option string;
  signatureBytes : list byte;
  digestAlgorithm : DigestAlgorithm;
  signatureAlgorithm : SignatureAlgorithm;
}.

(** Modelled from the spec: the error taxonomy of section 7, less
    SignatureMismatchError, which is a result and never raised. *)
Inductive EngineError :=
| KeyGenerationError
| MalformedKeyError
| KeyMismatchError
| NoKeyLoadedError
| InvalidInputError
| UnparsableDocumentError
| CorruptSignatureLocationError.

(** Modelled from the spec: the capability [{digest, sign, verify}] of
    section 9 through which the algorithms named in a record are
    dispatched. The hash functions and RSA themselves are primitives. *)
Class Crypto := {
  PublicKey : Type;
  PrivateKey : Type;
  digest : DigestAlgorithm -> list byte -> list byte;
  rsa_sign : SignatureAlgorithm -> PrivateKey -> list byte -> list byte;
  rsa_verify :
    SignatureAlgorithm -> PublicKey -> list byte -> list byte -> bool;
}.

(** Modelled from the spec: what scanning the structural trailer of a
    document finds (sections 4.2 and 4.5). An offset is the one the trailer
    declares for the start of the most recent record and of the
    incremental update that carries it. *)
Inductive Located :=
| NoTrailer
| NoRecord
| Malformed (offset : nat)
| Found (offset : nat) (r : SignatureRecord).

(** Modelled from the spec: the shared SignatureRecord format of section 2
    and the watermark fragment of section 4.3. [serialize r w] is the
    incremental update that carries the record [r] and the overlay [w];
    [locate] reads a document from its trailer. The specification fixes
    neither byte layout. *)
Class DocumentFormat := {
  locate : list byte -> Located;
  serialize : SignatureRecord -> list byte -> list byte;
  render_watermark : string -> string -> option string -> list byte;
}.

Section Components.

Context `{Crypto} `{DocumentFormat}.

(** Modelled from the spec: the Keypair of section 3. *)
Record Keypair := {
  publicKey : PublicKey;
  privateKey : PrivateKey;
}.

(** Modelled from the spec: the invariant of a keypair (section 3). The
    private key corresponds to the public one, so what the one signs the
    other accepts. *)
Definition corresponds (kp : Keypair) : Prop :=
  forall alg d,
    rsa_verify alg (publicKey kp) d (rsa_sign alg (privateKey kp) d) = true.

(** Modelled from the spec: the guarantee of the record format
    (section 4.2, (1)). An update appended to any content is found again,
    at the offset where the content ends. *)
Definition round_trips : Prop :=
  forall content r w,
    locate (content ++ serialize r w) = Found (length content) r.

(** Modelled from the spec: the process-wide key state of section 4.1,
    a single resident keypair. *)
Record EngineState := {
  resident : option Keypair;
}.

(** Engine operations: they read or replace the engine state and may
    fail with an error of the taxonomy. *)
Definition EngineM (A : Type) : Type :=
  EngineState -> (EngineError + A) * EngineState.

Definition pure {A} (a : A) : EngineM A := fun st => (inr a, st).
Definition fail {A} (e : EngineError) : EngineM A := fun st => (inl e, st).
Definition read_state : EngineM EngineState := fun st => (inr st, st).
Definition and_then {A B} (m : EngineM A) (k : A -> EngineM B) : EngineM B :=
  fun st =>
    match m st with
    | (inr a, st') => k a st'
    | (inl e, st') => (inl e, st')
    end.

Notation "'let+' x := m 'in' k" := (and_then m (fun x => k))
  (at level 10, x name, m at level 200, k at level 200).

(** *** 4.1 KeyStore (the two queries) *)

(** Modelled from the spec: [hasKey() -> bool]. *)
Definition hasKey : EngineM bool :=
  let+ st := read_state in
  pure (bool_decide (is_Some (resident st))).

(** Modelled from the spec: the resident public key, [NoKeyLoadedError]
    without one. *)
Definition resident_public_key : EngineM PublicKey :=
  let+ st := read_state in
  match resident st with
  | Some kp => pure (publicKey kp)
  | None => fail NoKeyLoadedError
  end.

(** *** 4.2 Canonicalizer *)

(** Modelled from the spec: the CanonicalRange of section 3, as start and
    length. *)
Record CanonicalRange := {
  range_start : nat;
  range_length : nat;
}.

(** Modelled from the spec: the bytes of a document that a range
    covers, the input of the digest. *)
Definition range_bytes (range : CanonicalRange) (pdfBytes : list byte)
  : list byte :=
  take (range_length range) (drop (range_start range) pdfBytes).

(** Modelled from the spec: [Canonicalizer.computeRange]. Without a record
    the range is the whole document; with one it is everything before the
    offset where the most recent record begins. No trailer is
    [UnparsableDocumentError]; a declared offset outside the file is
    [CorruptSignatureLocationError]. *)
Definition computeRange (pdfBytes : list byte)
  : EngineError + CanonicalRange :=
  match locate pdfBytes with
  | NoTrailer => inl UnparsableDocumentError
  | NoRecord => inr {| range_start := 0; range_length := length pdfBytes |}
  | Malformed offset | Found offset _ =>
      if decide (offset <= length pdfBytes)%nat
      then inr {| range_start := 0; range_length := offset |}
      else inl CorruptSignatureLocationError
  end.

(** Modelled from the spec: a valid PDF (section 4.2, edge cases). Its
    trailer is recognised and declares no offset outside the file, so
    that a canonical range exists. *)
Definition valid_pdf (pdfBytes : list byte) : Prop :=
  exists range, computeRange pdfBytes = inr range.

(** Modelled from the spec: a document that carries no record
    (section 4.5, step 1): scanning it finds none. *)
Definition unsigned (pdfBytes : list byte) : Prop :=
  locate pdfBytes = NoRecord \/ locate pdfBytes = NoTrailer.

(** *** 4.4 Signer *)

(** Modelled from the spec: what [sign] returns (section 4.4, step 9),
    the new bytes and the record for display. *)
Record SignedDocument := {
  signedPdfBytes : list byte;
  signatureInfo : SignatureRecord;
}.

(** Modelled from the spec: [sign(pdfBytes, signerName, extra)], steps 1
    to 9 of section 4.4; [now] is the current instant of step 6. The update
    is appended to the content of the canonical range: for a first signing
    that is the whole document, and signing again replaces the earlier
    record (section 3). The watermark is part of the update and never of
    the hashed content (section 4.3). *)
Definition sign (pdfBytes : list byte) (name : string) (ext : option string)
    (now : string) : EngineM SignedDocument :=
  let+ st := read_state in
  match resident st with
  | None => fail NoKeyLoadedError
  | Some kp =>
      if decide (name = EmptyString) then fail InvalidInputError
      else
        match computeRange pdfBytes with
        | inl e => fail e
        | inr range =>
            let content := range_bytes range pdfBytes in
            let d := digest SHA256 content in
            let sig := rsa_sign RSA_PSS (privateKey kp) d in
            let r := {| signerName := name; timestamp := now; extra := ext;
                        signatureBytes := sig; digestAlgorithm := SHA256;
                        signatureAlgorithm := RSA_PSS |} in
            let w := render_watermark name now ext in
            pure {| signedPdfBytes := content ++ serialize r w;
                    signatureInfo := r |}
        end
  end.

(** *** 4.5 Verifier *)

(** Modelled from the spec: the VerificationResult of section 4.5. *)
Record VerificationResult := {
  isSigned : bool;
  record : option SignatureRecord;
  message : string;
}.

(** Modelled from the spec: [verify(pdfBytes)], steps 1 to 7 of section
    4.5. The key is resolved only once a well-formed record was found and
    its range computed. *)
Definition verify (pdfBytes : list byte) : EngineM VerificationResult :=
  match locate pdfBytes with
  | NoTrailer | NoRecord =>
      pure {| isSigned := false; record := None; message := "not signed" |}
  | Malformed _ =>
      pure {| isSigned := false; record := None;
              message := "signature record corrupt" |}
  | Found _ r =>
      match computeRange pdfBytes with
      | inl e => fail e
      | inr range =>
          let d := digest (digestAlgorithm r) (range_bytes range pdfBytes) in
          let+ key := resident_public_key in
          if rsa_verify (signatureAlgorithm r) key d (signatureBytes r)
          then pure {| isSigned := true; record := Some r;
                       message := "valid" |}
          else pure {| isSigned := false; record := Some r;
                       message := "signature does not match content" |}
      end
  end.

End Components.

End Engine.

(** ** A reference instance of the two interfaces

    A small record format and a transparent stand-in for the primitives,
    on which the engine can be run. The format is read from the end of
    the file, as a trailer is: the update is the record written backwards,
    so that its marker is the last byte of the document. *)

Module Reference.

Import Engine.

Global Instance byte_eq_decision : EqDecision byte := Strings.Byte.byte_eq_dec.

(** A byte sequence of any length: each byte behind a continuation tag,
    closed by a zero tag. *)
Fixpoint enc_bytes (l : list byte) : list byte :=
  match l with
  | [] => [x00]
  | b :: l' => x01 :: b :: enc_bytes l'
  end.

Fixpoint dec_bytes (l : list byte) : option (list byte * list byte) :=
  match l with
  | x00 :: rest => Some ([], rest)
  | x01 :: b :: rest =>
      match dec_bytes rest with
      | Some (s, tl) => Some (b :: s, tl)
      | None => None
      end
  | _ => None
  end.

Definition enc_text (s : string) : list byte :=
  enc_bytes (list_byte_of_string s).

Definition dec_text (l : list byte) : option (string * list byte) :=
  match dec_bytes l with
  | Some (s, tl) => Some (string_of_list_byte s, tl)
  | None => None
  end.

Definition enc_opt_text (o : option string) : list byte :=
  match o with
  | None => [x00]
  | Some s => x01 :: enc_text s
  end.

Definition dec_opt_text (l : list byte) : option (option string * list byte) :=
  match l with
  | x00 :: rest => Some (None, rest)
  | x01 :: rest =>
      match dec_text rest with
      | Some (s, tl) => Some (Some s, tl)
      | None => None
      end
  | _ => None
  end.

Definition enc_digest_alg (a : DigestAlgorithm) : byte :=
  match a with SHA256 => x01 | SHA384 => x02 | SHA512 => x03 end.

Definition dec_digest_alg (b : byte) : option DigestAlgorithm :=
  match b with
  | x01 => Some SHA256 | x02 => Some SHA384 | x03 => Some SHA512
  | _ => None
  end.

Definition enc_signature_alg (a : SignatureAlgorithm) : byte :=
  match a with RSA_PSS => x01 | RSA_PKCS1_v15 => x02 end.

Definition dec_signature_alg (b : byte) : option SignatureAlgorithm :=
  match b with
  | x01 => Some RSA_PSS | x02 => Some RSA_PKCS1_v15
  | _ => None
  end.

(** The marker of a record, the last byte of a signed document. *)
Definition marker : byte := x53.

Definition enc_record (r : SignatureRecord) (w : list byte) : list byte :=
  enc_digest_alg (digestAlgorithm r) :: enc_signature_alg (signatureAlgorithm r)
  :: enc_text (signerName r) ++ enc_text (timestamp r)
  ++ enc_opt_text (extra r) ++ enc_bytes (signatureBytes r) ++ enc_bytes w.

Definition dec_record (l : list byte) : option (SignatureRecord * list byte) :=
  match l with
  | da :: sa :: l1 =>
      match dec_digest_alg da, dec_signature_alg sa with
      | Some dalg, Some salg =>
          match dec_text l1 with
          | Some (n, l2) =>
              match dec_text l2 with
              | Some (t, l3) =>
                  match dec_opt_text l3 with
                  | Some (e, l4) =>
                      match dec_bytes l4 with
                      | Some (s, l5) =>
                          match dec_bytes l5 with
                          | Some (_, l6) =>
                              Some ({| signerName := n; timestamp := t;
                                       extra := e; signatureBytes := s;
                                       digestAlgorithm := dalg;
                                       signatureAlgorithm := salg |}, l6)
                          | None => None
                          end
                      | None => None
                      end
                  | None => None
                  end
              | None => None
              end
          | None => None
          end
      | _, _ => None
      end
  | _ => None
  end.

Definition ref_locate (pdfBytes : list byte) : Located :=
  match rev pdfBytes with
  | [] => NoTrailer
  | m :: body =>
      if decide (m = marker) then
        match dec_record body with
        | Some (r, before) => Found (length before) r
        | None => Malformed 0
        end
      else NoRecord
  end.

Global Instance format : DocumentFormat := {|
  locate := ref_locate;
  serialize r w := rev (marker :: enc_record r w);
  render_watermark n t e :=
    list_byte_of_string n ++ list_byte_of_string t
    ++ match e with Some s => list_byte_of_string s | None => [] end;
|}.

(** Keys are byte strings, a public key accepts what the equal private
    key signed; a digest is the tagged message itself. *)
Global Instance crypto : Crypto := {|
  PublicKey := list byte;
  PrivateKey := list byte;
  digest a m := enc_digest_alg a :: m;
  rsa_sign a sk d := enc_signature_alg a :: enc_bytes sk ++ d;
  rsa_verify a pk d s :=
    bool_decide (s = enc_signature_alg a :: enc_bytes pk ++ d);
|}.

Definition keypair : Keypair :=
  {| publicKey := [x6b; x31] : @PublicKey crypto;
     privateKey := [x6b; x31] : @PrivateKey crypto |}.

Definition other_keypair : Keypair :=
  {| publicKey := [x6b; x32] : @PublicKey crypto;
     privateKey := [x6b; x32] : @PrivateKey crypto |}.

(** The same public key beside a private key that is not its own. *)
Definition mismatched_keypair : Keypair :=
  {| publicKey := [x6b; x31] : @PublicKey crypto;
     privateKey := [x6b; x32] : @PrivateKey crypto |}.

Definition loaded : EngineState := {| resident := Some keypair |}.

(** A document of four bytes, never signed. *)
Definition plain : list byte := [x25; x50; x44; x46].

(** [plain] signed by Ann under [keypair]. *)
Definition ann_record : SignatureRecord :=
  {| signerName := "Ann"; timestamp := "2024-01-01T00:00:00Z";
     extra := None;
     signatureBytes := rsa_sign RSA_PSS (privateKey keypair)
                         (digest SHA256 plain);
     digestAlgorithm := SHA256; signatureAlgorithm := RSA_PSS |}.

Definition ann_signed : SignedDocument :=
  {| signedPdfBytes :=
       plain ++ serialize ann_record
                  (render_watermark "Ann" "2024-01-01T00:00:00Z" None);
     signatureInfo := ann_record |}.

End Reference.

(** ** Vocabulary of the properties *)

(** The markup that [showError] puts in the modal for a message. *)
Definition error_markup (msg : jsstring) : jsstring :=
  str "<p class=" ++ dq ++ str "message error" ++ dq ++ str ">"
  ++ msg ++ str "</p>".

(** The modal is up and reports the error [msg]. *)
Definition modal_shows_error (w : World) (msg : jsstring) : Prop :=
  content (dom w !!! modalTitle) = Text (str "Error")
  /\ content (dom w !!! modalContent) = Html (error_markup msg)
  /\ "hidden" ∉ classList (dom w !!! modalOverlay).

(** Every element other than those of [ns] is as it was. *)
Definition outside (ns : list node) (w w' : World) : Prop :=
  forall n, n ∉ ns -> dom w' !! n = dom w !! n.

Definition modal_nodes : list node := [modalOverlay; modalTitle; modalContent].

(** The guard of [signPdf] and [updateSignButton], on a world. *)
Definition inputs_missing (w : World) : bool :=
  negb (bool_decide (is_Some (selectedFile (state w))))
  || negb (truthy (trim (value (dom w !!! elements.signerNameInput)))).

(** The request that [signPdf] builds from the form for the bytes read. *)
Definition request_of (w : World) (pdfBytes : list byte) : SignPdfRequest :=
  {| pdf_data := pdfBytes;
     name := trim (value (dom w !!! elements.signerNameInput));
     req_extra := trim (value (dom w !!! elements.extraTextInput)) |}.

(** The steps at which a run of [signPdf] from [w] fails, with the
    message that the step reports. *)
Inductive sign_failure (w : World) : jsstring -> Prop :=
| fail_inputs :
    inputs_missing w = true ->
    sign_failure w (str "Please enter your name and select a PDF file.")
| fail_read file e :
    inputs_missing w = false ->
    selectedFile (state w) = Some file ->
    file_arrayBuffer file = inl e ->
    sign_failure w (str "Failed to sign PDF: " ++ e)
| fail_engine file pdfBytes e :
    inputs_missing w = false ->
    selectedFile (state w) = Some file ->
    file_arrayBuffer file = inr pdfBytes ->
    on_sign_pdf (backend w) (request_of w pdfBytes) = inl e ->
    sign_failure w (str "Failed to sign PDF: " ++ e).

(** The two requests that change the resident key. *)
Inductive KeyRequest :=
| Generate
| Import (privateKeyPem publicKeyPem : jsstring).

Definition key_handler (r : KeyRequest) : M unit :=
  match r with
  | Generate => generateKeypair
  | Import priv pub => importKey priv pub
  end.

Definition key_answer (r : KeyRequest) (b : Backend) : Err + jsstring :=
  match r with
  | Generate => on_generate_keypair b
  | Import priv pub => on_import_key b priv pub
  end.

Definition key_failure_message (r : KeyRequest) (e : Err) : jsstring :=
  match r with
  | Generate => str "Failed to generate keypair: " ++ e
  | Import _ _ => str "Failed to import key: " ++ e
  end.

(** The details panel of the verify tab is visible and shows [info]. *)
Definition displays_record (w : World) (info : SignatureInfo) : Prop :=
  ("hidden" ∉ classList (dom w !!! elements.verifyDetails))
  /\ content (dom w !!! elements.verifyName) = Text (signer_name info)
  /\ content (dom w !!! elements.verifyTimestamp) = Text (timestamp info)
  /\ content (dom w !!! elements.verifyExtra)
     = Text (or_else (extra info) (str "(none)"))
  /\ content (dom w !!! elements.verifySignature) = Text (signature info).

Definition detail_nodes : list node :=
  [elements.verifyName; elements.verifyTimestamp; elements.verifyExtra;
   elements.verifySignature].

(** A quantity [num / den] rendered with one decimal: the tenths nearest
    to it, the upper one on a tie, as integer part, point, digit. *)
Definition one_decimal (num den : Z) : jsstring :=
  let tenths := Z.to_N ((20 * num + den) / (2 * den)) in
  digits (tenths / 10)%N ++ str "." ++ digits (tenths mod 10)%N.

(** A page on which nothing is selected and whose engine refuses
    everything. *)
Definition refusing : Backend :=
  {| on_has_key := inr false;
     on_get_public_key := inl (str "no key loaded");
     on_generate_keypair := inl (str "random source unavailable");
     on_import_key := fun _ _ => inl (str "key mismatch");
     on_export_key := inl (str "no key loaded");
     on_sign_pdf := fun _ => inl (str "no key loaded");
     on_verify_pdf := fun _ => inl (str "unparsable document") |}.

Definition blank_state : State :=
  {| hasKey := false; currentPublicKey := []; selectedFile := None;
     signedPdfData := None; verifySelectedFile := None;
     currentTab := str "sign-section" |}.

Definition blank : World :=
  {| state := blank_state; dom := ∅; backend := refusing; effects := [] |}.

Definition set_value (v : jsstring) (e : Element) : Element :=
  {| classList := classList e; content := content e; disabled := disabled e;
     value := v; files := files e; parentElement := parentElement e;
     children := children e |}.

Definition png : File :=
  {| file_name := str "scan.png"; file_type := str "image/png";
     file_size := 2048; file_arrayBuffer := inr [x89; x50; x4e; x47] |}.

Definition pdf : File :=
  {| file_name := str "letter.pdf"; file_type := str "application/pdf";
     file_size := 4; file_arrayBuffer := inr Reference.plain |}.

Definition unreadable : File :=
  {| file_name := str "gone.pdf"; file_type := str "application/pdf";
     file_size := 4; file_arrayBuffer := inl (str "NotFoundError") |}.

(** A signer's record as the verify tab receives it, an answer of the
    engine that carries it although the check failed, and a page about to
    verify a document against an engine that gives that answer. *)
Definition ann_info : SignatureInfo :=
  {| signer_name := str "Ann"; timestamp := str "2024-01-01T00:00:00Z";
     extra := []; signature := str "c2ln" |}.

Definition tampered_answer : VerifyPdfResponse :=
  {| is_signed := false; v_signature_info := Some ann_info;
     message := str "signature does not match content" |}.

Definition unsigned_answer : VerifyPdfResponse :=
  {| is_signed := false; v_signature_info := None;
     message := str "not signed" |}.

Definition answering (a : VerifyPdfResponse) : Backend :=
  {| on_has_key := on_has_key refusing;
     on_get_public_key := on_get_public_key refusing;
     on_generate_keypair := on_generate_keypair refusing;
     on_import_key := on_import_key refusing;
     on_export_key := on_export_key refusing;
     on_sign_pdf := on_sign_pdf refusing;
     on_verify_pdf := fun _ => inr a |}.

Definition verifying (file : File) (a : VerifyPdfResponse) : World :=
  {| state := set_verifySelectedFile (Some file) blank_state; dom := ∅;
     backend := answering a; effects := [] |}.

Definition signed_pdf_file : File :=
  {| file_name := str "letter_SIGNED.pdf";
     file_type := str "application/pdf"; file_size := 125;
     file_arrayBuffer := inr (Engine.signedPdfBytes Reference.ann_signed) |}.

(** A page ready to sign [file] under the name [n]. *)
Definition signing (file : File) (n : jsstring) : World :=
  {| state := set_selectedFile (Some file) blank_state;
     dom := {[ elements.signerNameInput := set_value n inhabitant ]};
     backend := refusing; effects := [] |}.

(** ** main.ts: forms, tabs and the key status *)

Definition set_files (f : option (list File)) (e : Element) : Element :=
  {| classList := classList e; content := content e; disabled := disabled e;
     value := value e; files := f; parentElement := parentElement e;
     children := children e |}.

Definition set_currentTab (t : jsstring) (s : State) : State :=
  {| hasKey := hasKey s; currentPublicKey := currentPublicKey s;
     selectedFile := selectedFile s; signedPdfData := signedPdfData s;
     verifySelectedFile := verifySelectedFile s; currentTab := t |}.

(** [input.value = v]. A file input takes the empty string only, and
    with it loses its files; any other value is an [InvalidStateError]. *)
Definition set_value_of (n : node) (v : jsstring) : M unit :=
  let* e := get_elem n in
  match files e with
  | None => modify_elem n (set_value v)
  | Some _ =>
      if truthy v then throw (str "InvalidStateError")
      else modify_elem n (fun e => set_files (Some []) (set_value [] e))
  end.

Definition clearSignForm : M unit :=
  set_value_of elements.signerNameInput [] ;;
  set_value_of elements.extraTextInput [] ;;
  set_value_of elements.fileInput [] ;;
  modify_state (set_selectedFile None) ;;
  classList_add elements.resultSection "hidden" ;;
  classList_add elements.fileInfo "hidden" ;;
  (let* dropContent :=
     querySelector_class elements.dropZone "drop-zone-content" in
   when_elem dropContent (fun c => classList_remove c "hidden")) ;;
  set_disabled_of btnSign true.

Definition clearVerifyForm : M unit :=
  set_value_of elements.verifyFileInput [] ;;
  modify_state (set_verifySelectedFile None) ;;
  classList_add elements.verifyResult "hidden" ;;
  classList_add elements.verifySuccess "hidden" ;;
  classList_add elements.verifyError "hidden" ;;
  classList_add elements.verifyDetails "hidden" ;;
  classList_add elements.resultSection "hidden" ;;
  classList_add elements.verifyFileInfo "hidden" ;;
  (let* dropContent :=
     querySelector_class elements.verifyDropZone "drop-zone-content" in
   when_elem dropContent (fun c => classList_remove c "hidden")) ;;
  set_disabled_of btnVerify true.

Definition switchTab (tabId : jsstring) : M unit :=
  modify_state (set_currentTab tabId) ;;
  let isSignTab := bool_decide (tabId = str "sign-section") in
  classList_toggle elements.tabSign "active" isSignTab ;;
  classList_toggle elements.tabVerify "active" (negb isSignTab) ;;
  classList_toggle elements.signSection "hidden" (negb isSignTab) ;;
  classList_toggle elements.verifySection "hidden" isSignTab ;;
  (let* s := get_state in
   classList_toggle elements.keySection "hidden"
     (negb isSignTab || negb (hasKey s))) ;;
  if isSignTab then clearSignForm else clearVerifyForm.

(** The click listener of the Import button of the import modal, set up
    in [initKeyButtons]. *)
Definition initKeyButtons_import_click : M unit :=
  let* privateInput := get_elem (getElement "import-private-key") in
  let privateKey := trim (value privateInput) in
  let* publicInput := get_elem (getElement "import-public-key") in
  let publicKey := trim (value publicInput) in
  if negb (truthy privateKey) || negb (truthy publicKey) then
    showError modalOverlay modalTitle modalContent
      (str "Please provide both private and public keys.")
  else importKey privateKey publicKey.

(** The click listener of the modal overlay, set up in
    [initEventListeners]; [target] is [e.target]. *)
Definition modalOverlay_click (target : node) : M unit :=
  if decide (target = modalOverlay) then hideModal modalOverlay else ret tt.

(** *** The shell around the page: save dialog, file system, console

    [save] of the dialog plugin, [writeFile] of the file system plugin
    and [console.error] are outside the page. A handler that uses them runs
    over the page together with the answers of the two plugins and a
    journal of what was asked of the shell. *)

Record Shell := {
  on_save : jsstring -> Err + option jsstring;
  on_writeFile : jsstring -> list byte -> Err + unit;
}.

Inductive ShellEvent :=
| SaveDialog (defaultPath filterName : jsstring) (extensions : list jsstring)
| WriteFile (path : jsstring) (data : list byte)
| ConsoleError (label : jsstring) (error : Err).

Record Desktop := {
  page : World;
  shell : Shell;
  journal : list ShellEvent;
}.

Definition with_page (w : World) (d : Desktop) : Desktop :=
  {| page := w; shell := shell d; journal := journal d |}.

Definition with_event (e : ShellEvent) (d : Desktop) : Desktop :=
  {| page := page d; shell := shell d; journal := journal d ++ [e] |}.

Definition D (A : Type) : Type := Desktop -> Desktop * (Err + A).

Definition retD {A} (a : A) : D A := fun d => (d, inr a).

Definition bindD {A B} (m : D A) (k : A -> D B) : D B :=
  fun d =>
    match m d with
    | (d', inr a) => k a d'
    | (d', inl e) => (d', inl e)
    end.

Definition try_catchD {A} (body : D A) (handler : Err -> D A) : D A :=
  fun d =>
    match body d with
    | (d', inl e) => handler e d'
    | r => r
    end.

(** A step of the page, run inside the desktop. *)
Definition liftM {A} (m : M A) : D A :=
  fun d => (with_page (fst (m (page d))) d, snd (m (page d))).

Notation "'let**' x := m 'in' k" := (bindD m (fun x => k))
  (at level 10, x name, m at level 200, k at level 200).
Notation "m ;;; k" := (bindD m (fun _ => k))
  (at level 100, k at level 200, right associativity).

(** [await save({ defaultPath, filters: [{ name, extensions }] })] *)
Definition save (defaultPath filterName : jsstring)
    (extensions : list jsstring) : D (option jsstring) :=
  fun d =>
    (with_event (SaveDialog defaultPath filterName extensions) d,
     on_save (shell d) defaultPath).

(** [await writeFile(path, new Uint8Array(data))] *)
Definition writeFile (path : jsstring) (data : list byte) : D unit :=
  fun d => (with_event (WriteFile path data) d, on_writeFile (shell d) path data).

(** [console.error(label, error)] *)
Definition console_error (label : jsstring) (error : Err) : D unit :=
  fun d => (with_event (ConsoleError label error) d, inr tt).

Definition runD {A} (m : D A) (d : Desktop) : Desktop := fst (m d).

Definition checkKeyStatus : D unit :=
  try_catchD
    (liftM
       (let* has := invoke has_key on_has_key in
        modify_state (set_hasKey has) ;;
        let* s := get_state in
        if hasKey s then
          let* publicKey := invoke get_public_key on_get_public_key in
          modify_state (set_currentPublicKey publicKey) ;;
          updateKeyUI true
        else updateKeyUI false))
    (fun error => console_error (str "Failed to check key status:") error).

(** [/\.pdf$/i]: the last four code units are a point and the letters
    p, d, f in either case. Without the [u] flag no other character
    matches a letter of the pattern. *)
Definition is_pdf_suffix (t : jsstring) : bool :=
  match t with
  | [a; b; c; d] =>
      ((a =? 46) && ((b =? 112) || (b =? 80)) && ((c =? 100) || (c =? 68))
       && ((d =? 102) || (d =? 70)))%N
  | _ => false
  end.

(** [name.replace(/\.pdf$/i, "_SIGNED.pdf")] *)
Definition replace_pdf_suffix (name : jsstring) : jsstring :=
  let k := (length name - 4)%nat in
  if is_pdf_suffix (drop k name) then take k name ++ str "_SIGNED.pdf"
  else name.

Definition downloadSignedPdf : D unit :=
  let** s := liftM get_state in
  match signedPdfData s with
  | None => retD tt
  | Some _ =>
      try_catchD
        (let** s := liftM get_state in
         let defaultFileName :=
           match selectedFile s with
           | Some file => replace_pdf_suffix (file_name file)
           | None => str "signed_document.pdf"
           end in
         let** filePath := save defaultFileName (str "PDF") [str "pdf"] in
         match filePath with
         | Some path =>
             if truthy path then
               (let** s := liftM get_state in
                writeFile path (default [] (signedPdfData s))) ;;;
               liftM (showTemporarySuccess modalOverlay modalTitle
                        modalContent (str "PDF saved successfully!") 2000)
             else retD tt
         | None => retD tt
         end)
        (fun error =>
           liftM (showError modalOverlay modalTitle modalContent
                    (str "Failed to save PDF: " ++ error)))
  end.

(** The two drop zones as [initDropZones] sets them up: their listeners
    for a drop and for a change of the file input. *)
Definition signDropZone_drop (dropped : option (list File)) : M unit :=
  setupDropZone_drop elements.dropZone onSignFileSelect
    (Some elements.fileInfo) (Some elements.fileName)
    (Some elements.fileSize) dropped.

Definition signFileInput_change : M unit :=
  setupDropZone_change elements.fileInput onSignFileSelect
    (Some elements.fileInfo) (Some elements.fileName)
    (Some elements.fileSize).

Definition verifyDropZone_drop (dropped : option (list File)) : M unit :=
  setupDropZone_drop elements.verifyDropZone onVerifyFileSelect
    (Some elements.verifyFileInfo) (Some elements.verifyFileName)
    (Some elements.verifyFileSize) dropped.

Definition verifyFileInput_change : M unit :=
  setupDropZone_change elements.verifyFileInput onVerifyFileSelect
    (Some elements.verifyFileInfo) (Some elements.verifyFileName)
    (Some elements.verifyFileSize).

(** ** Vocabulary of the further properties *)

(** A string neither begins nor ends with white space. *)
Definition blank_free_ends (s : jsstring) : Prop :=
  (forall c, head s = Some c -> is_white_space c = false)
  /\ (forall c, last s = Some c -> is_white_space c = false).

(** The markup that [showTemporarySuccess] puts in the modal. *)
Definition success_markup (msg : jsstring) : jsstring :=
  str "<p class=" ++ dq ++ str "message success" ++ dq ++ str ">"
  ++ msg ++ str "</p>".

(** The modal is up and reports the success [msg]. *)
Definition modal_shows_success (w : World) (msg : jsstring) : Prop :=
  content (dom w !!! modalTitle) = Text (str "Success")
  /\ content (dom w !!! modalContent) = Html (success_markup msg)
  /\ "hidden" ∉ classList (dom w !!! modalOverlay).

(** An element is shown when it does not carry the class [hidden]. *)
Definition shown (w : World) (n : node) : Prop :=
  "hidden" ∉ classList (dom w !!! n).

(** The view of the key section for a page that has a key: the buttons to
    get a key and the notice are hidden, the export button, the key and
    the sign form are shown. [no_key_view] is the other way round. *)
Definition key_view (w : World) : Prop :=
  ~ shown w elements.btnGenerateKey /\ ~ shown w elements.btnImportKey
  /\ ~ shown w elements.noKeyMessage
  /\ shown w elements.btnExportKey /\ shown w elements.keySection
  /\ shown w elements.signForm.

Definition no_key_view (w : World) : Prop :=
  shown w elements.btnGenerateKey /\ shown w elements.btnImportKey
  /\ shown w elements.noKeyMessage
  /\ ~ shown w elements.btnExportKey /\ ~ shown w elements.keySection
  /\ ~ shown w elements.signForm.

(** The command that a key request sends. *)
Definition key_command (r : KeyRequest) : Command :=
  match r with
  | Generate => generate_keypair
  | Import priv pub => import_key priv pub
  end.

Definition key_success_message (r : KeyRequest) : jsstring :=
  match r with
  | Generate => str "Keypair generated successfully!"
  | Import _ _ => str "Key imported successfully!"
  end.

(** The steps at which a run of [verifyPdf] from [w] fails. *)
Inductive verify_failure (w : World) : Err -> Prop :=
| verify_fail_read file e :
    verifySelectedFile (state w) = Some file ->
    file_arrayBuffer file = inl e ->
    verify_failure w e
| verify_fail_engine file pdfBytes e :
    verifySelectedFile (state w) = Some file ->
    file_arrayBuffer file = inr pdfBytes ->
    on_verify_pdf (backend w) pdfBytes = inl e ->
    verify_failure w e.

(** The name that [downloadSignedPdf] proposes in the save dialog. *)
Definition download_name (s : State) : jsstring :=
  match selectedFile s with
  | Some file => replace_pdf_suffix (file_name file)
  | None => str "signed_document.pdf"
  end.

(** The dialog that [downloadSignedPdf] opens. *)
Definition download_dialog (s : State) : ShellEvent :=
  SaveDialog (download_name s) (str "PDF") [str "pdf"].

(** The steps at which saving the signed document [data] fails: the
    dialog, or writing to the chosen path; with what was asked of the
    shell up to the failure. *)
Inductive save_failure (d : Desktop) (data : list byte)
  : Err -> list ShellEvent -> Prop :=
| save_fail_dialog e :
    on_save (shell d) (download_name (state (page d))) = inl e ->
    save_failure d data e [download_dialog (state (page d))]
| save_fail_write path e :
    on_save (shell d) (download_name (state (page d))) = inr (Some path) ->
    truthy path = true ->
    on_writeFile (shell d) path data = inl e ->
    save_failure d data e
      [download_dialog (state (page d)); WriteFile path data].

(** A page that holds a signed document and the file it came from, in a
    shell whose dialog answers [answer] and whose writes succeed. *)
Definition holding (name : jsstring) (answer : Err + option jsstring)
  : Desktop :=
  {| page :=
       {| state :=
            set_signedPdfData (Some (Engine.signedPdfBytes Reference.ann_signed))
              (set_selectedFile
                 (Some {| file_name := name;
                          file_type := str "application/pdf";
                          file_size := 4;
                          file_arrayBuffer := inr Reference.plain |})
                 blank_state);
          dom := ∅; backend := refusing; effects := [] |};
     shell := {| on_save := fun _ => answer;
                 on_writeFile := fun _ _ => inr tt |};
     journal := [] |}.

(** A desktop around a page. *)
Definition around (w : World) : Desktop :=
  {| page := w;
     shell := {| on_save := fun _ => inr None;
                 on_writeFile := fun _ _ => inr tt |};
     journal := [] |}.

(** What [input.value = ""] does to an input, of either kind. *)
Definition clear_input (e : Element) : Element :=
  match files e with
  | None => set_value [] e
  | Some _ => set_files (Some []) (set_value [] e)
  end.

(** The element that [zone.querySelector(".drop-zone-content")] finds. *)
Definition zone_content (w : World) (zone : node) : option node :=
  first_with_class (size (dom w)) (dom w) (children (dom w !!! zone))
    "drop-zone-content".

(** The elements that main.ts fetches by their id. *)
Definition page_nodes : list node :=
  [elements.btnGenerateKey; elements.btnImportKey; elements.btnExportKey;
   elements.keySection; elements.publicKeyContent; elements.noKeyMessage;
   elements.signForm; elements.signerNameInput; elements.extraTextInput;
   elements.dropZone; elements.fileInput; elements.fileInfo;
   elements.fileName; elements.fileSize; elements.btnSign;
   elements.resultSection; elements.resultName; elements.resultTimestamp;
   elements.resultExtra; elements.resultSignature; elements.btnDownload;
   elements.modalOverlay; elements.modal; elements.modalTitle;
   elements.modalContent; elements.modalClose; elements.tabSign;
   elements.tabVerify; elements.signSection; elements.verifySection;
   elements.verifyDropZone; elements.verifyFileInput;
   elements.verifyFileInfo; elements.verifyFileName;
   elements.verifyFileSize; elements.btnVerify; elements.verifyResult;
   elements.verifySuccess; elements.verifyError; elements.verifyMessage;
   elements.verifyErrorMessage; elements.verifyDetails;
   elements.verifyName; elements.verifyTimestamp; elements.verifyExtra;
   elements.verifySignature].

(** The page is laid out so that the content of a drop zone is an
    element of its own: none of the elements fetched by id carries the
    class [drop-zone-content]. *)
Definition content_apart (w : World) : Prop :=
  Forall (fun n => "drop-zone-content" ∉ classList (dom w !!! n)) page_nodes.

(** From [w] to [w'] no element changed its children or whether it is
    the content of a drop zone, and none left the store. *)
Definition same_layout (w w' : World) : Prop :=
  (forall n, children (dom w' !!! n) = children (dom w !!! n))
  /\ (forall n, "drop-zone-content" ∈ classList (dom w' !!! n)
                <-> "drop-zone-content" ∈ classList (dom w !!! n))
  /\ (size (dom w) <= size (dom w'))%nat.

(** A rewriting of an element that keeps its children and whether it is
    the content of a drop zone. *)
Definition gentle (f : Element -> Element) : Prop :=
  forall e, children (f e) = children e
            /\ ("drop-zone-content" ∈ classList (f e)
                <-> "drop-zone-content" ∈ classList e).

(** A sign tab with a drop zone that holds its content [zone-content]
    and the file info. *)
Definition laid_out (n : jsstring) : World :=
  {| state := blank_state;
     dom :=
       {[ elements.dropZone :=
            {| classList := ∅; content := Text []; disabled := false;
               value := []; files := None; parentElement := None;
               children := ["zone-content"; elements.fileInfo] |};
          "zone-content" :=
            {| classList := {["drop-zone-content"]}; content := Text [];
               disabled := false; value := []; files := None;
               parentElement := Some elements.dropZone; children := [] |};
          elements.fileInfo :=
            {| classList := {["hidden"]}; content := Text [];
               disabled := false; value := []; files := None;
               parentElement := Some elements.dropZone;
               children := [elements.fileName; elements.fileSize] |};
          elements.fileInput :=
            {| classList := ∅; content := Text []; disabled := false;
               value := []; files := Some []; parentElement := None;
               children := [] |};
          elements.signerNameInput := set_value n inhabitant ]};
     backend := refusing; effects := [] |}.


(** An answer to [sign_pdf] and a positive answer to [verify_pdf], an
    engine that holds a key and answers every command, and one that has
    a key but does not hand it out. *)
Definition ann_response : SignPdfResponse :=
  {| signed_pdf := Engine.signedPdfBytes Reference.ann_signed;
     signature_info := ann_info |}.

Definition valid_answer : VerifyPdfResponse :=
  {| is_signed := true; v_signature_info := Some ann_info;
     message := str "signature is valid" |}.

Definition serving : Backend :=
  {| on_has_key := inr true;
     on_get_public_key := inr (str "PEM");
     on_generate_keypair := inr (str "PEM");
     on_import_key := fun _ publicKeyPem => inr publicKeyPem;
     on_export_key := inr (str "PEM");
     on_sign_pdf := fun _ => inr ann_response;
     on_verify_pdf := fun _ => inr valid_answer |}.

Definition withholding : Backend :=
  {| on_has_key := inr true;
     on_get_public_key := on_get_public_key refusing;
     on_generate_keypair := on_generate_keypair refusing;
     on_import_key := on_import_key refusing;
     on_export_key := on_export_key refusing;
     on_sign_pdf := on_sign_pdf refusing;
     on_verify_pdf := on_verify_pdf refusing |}.

Definition with_backend (b : Backend) (w : World) : World :=
  {| state := state w; dom := dom w; backend := b; effects := effects w |}.

(** The import modal with the two keys typed in, around an engine that
    answers. *)
Definition importing (privateKey publicKey : jsstring) : World :=
  {| state := blank_state;
     dom := {[ "import-private-key" := set_value privateKey inhabitant;
               "import-public-key" := set_value publicKey inhabitant ]};
     backend := serving; effects := [] |}.

(** The verify tab after a PDF was picked with the file input. *)
Definition picked (file : File) : World :=
  {| state := blank_state;
     dom := {[ elements.verifyFileInput :=
                 set_files (Some [file]) inhabitant ]};
     backend := refusing; effects := [] |}.
(** * Properties *)

(** ** Strings *)

Lemma trim_start_blank (s : jsstring) :
  forallb is_white_space s = true -> trim_start s = [].
Proof.
  induction s as [|c s IH]; simpl; [reflexivity|].
  intros [Hc Hs]%andb_prop. rewrite Hc. auto.
Qed.

Lemma trim_blank (s : jsstring) :
  forallb is_white_space s = true -> trim s = [].
Proof.
  intros Hs. unfold trim, trim_end. rewrite (trim_start_blank s) by assumption.
  reflexivity.
Qed.

Lemma trim_start_split (s : jsstring) :
  exists blanks, s = blanks ++ trim_start s
                 /\ forallb is_white_space blanks = true.
Proof.
  induction s as [|c s [blanks [Heq Hb]]]; simpl.
  - exists []. split; reflexivity.
  - destruct (is_white_space c) eqn:Hc.
    + exists (c :: blanks). simpl. rewrite Hc, Hb. split; [congruence|reflexivity].
    + exists []. split; reflexivity.
Qed.

Lemma trim_start_empty (s : jsstring) :
  trim_start s = [] -> forallb is_white_space s = true.
Proof.
  intros Hs. destruct (trim_start_split s) as [blanks [Heq Hb]].
  rewrite Hs, app_nil_r in Heq. congruence.
Qed.

(** A name trims to the empty string exactly when it is blank. *)
Lemma trim_empty_iff (s : jsstring) :
  trim s = [] <-> forallb is_white_space s = true.
Proof.
  split; [|apply trim_blank].
  unfold trim, trim_end. intros Ht.
  apply (f_equal (@rev N)) in Ht. rewrite rev_involutive in Ht. simpl in Ht.
  apply trim_start_empty in Ht.
  assert (Hx : forallb is_white_space (trim_start s) = true).
  { apply forallb_forall. intros c Hc. rewrite forallb_forall in Ht.
    apply Ht. apply in_rev in Hc. assumption. }
  destruct (trim_start_split s) as [blanks [Heq Hb]].
  rewrite Heq, forallb_app, Hb, Hx. reflexivity.
Qed.

(** ** Decimal rendering and [formatFileSize] *)

Lemma digits_fuel_enough (f f' : nat) (n : N) :
  (n < 10 ^ N.of_nat (S f))%N -> (n < 10 ^ N.of_nat (S f'))%N ->
  digits_fuel (S f) n = digits_fuel (S f') n.
Proof.
  revert f' n. induction f as [|f IH]; intros f' n Hf Hf'.
  - change (10 ^ N.of_nat 1)%N with 10%N in Hf.
    simpl. apply N.ltb_lt in Hf. rewrite Hf. reflexivity.
  - cbn [digits_fuel]. destruct (n <? 10)%N eqn:Hn; [reflexivity|].
    apply N.ltb_ge in Hn.
    assert (Hdiv : forall k, (n < 10 ^ N.of_nat (S k))%N ->
                             (n / 10 < 10 ^ N.of_nat k)%N).
    { intros k Hk. apply N.Div0.div_lt_upper_bound.
      rewrite Nat2N.inj_succ, N.pow_succ_r' in Hk. assumption. }
    destruct f' as [|f'].
    + change (10 ^ N.of_nat 1)%N with 10%N in Hf'. lia.
    + f_equal. apply IH; apply Hdiv; assumption.
Qed.

Lemma digits_bound (n : N) : (n < 10 ^ N.of_nat (S (N.to_nat (N.log2 n))))%N.
Proof.
  rewrite Nat2N.inj_succ, N2Nat.id.
  destruct (N.eq_dec n 0%N) as [->|Hn]; [reflexivity|].
  apply N.lt_le_trans with (2 ^ N.succ (N.log2 n))%N.
  - apply N.log2_spec. lia.
  - apply N.pow_le_mono_l. lia.
Qed.

Lemma digits_small (n : N) : (n < 10)%N -> digits n = [(48 + n)%N].
Proof.
  intros Hn. unfold digits. simpl. apply N.ltb_lt in Hn. rewrite Hn.
  reflexivity.
Qed.

Lemma digits_step (n : N) :
  (10 <= n)%N -> digits n = digits (n / 10) ++ [(48 + n mod 10)%N].
Proof.
  intros Hn. unfold digits at 1. cbn [digits_fuel].
  apply N.ltb_ge in Hn as Hn'. rewrite Hn'. f_equal.
  pose proof (digits_bound n) as Hb.
  destruct (N.to_nat (N.log2 n)) as [|l] eqn:Hl.
  - change (10 ^ N.of_nat 1)%N with 10%N in Hb. lia.
  - unfold digits. apply digits_fuel_enough; [|apply digits_bound].
    apply N.Div0.div_lt_upper_bound.
    rewrite (Nat2N.inj_succ (S l)), N.pow_succ_r' in Hb. assumption.
Qed.

Lemma digits_nonempty (n : N) : (1 <= length (digits n))%nat.
Proof.
  destruct (N.lt_ge_cases n 10%N) as [Hn|Hn].
  - rewrite digits_small by assumption. simpl. lia.
  - rewrite digits_step by assumption. rewrite length_app. simpl. lia.
Qed.

(** [toFixed(1)] of a non-negative quotient is the quotient with one
    decimal. *)
Lemma to_fixed_1_quotient (num : Z) (den : positive) :
  0 <= num ->
  to_fixed_1 (inject_Z num / inject_Z (Z.pos den)) = one_decimal num (Z.pos den).
Proof.
  intros Hnum. unfold to_fixed_1, one_decimal.
  destruct (Qlt_le_dec _ 0) as [Hneg|_].
  { exfalso. revert Hneg. unfold Qlt, Qdiv, Qmult, Qinv, inject_Z. simpl. lia. }
  set (n := Z.to_N (Qfloor _)). set (t := Z.to_N _).
  assert (Hnt : n = t).
  { subst n t. f_equal.
    unfold Qfloor, Qabs, Qplus, Qdiv, Qmult, Qinv, inject_Z. simpl.
    rewrite Z.abs_eq by lia. f_equal; lia. }
  rewrite Hnt. clear n Hnt. simpl app at 1.
  destruct (N.lt_ge_cases t 10%N) as [Ht|Ht].
  - rewrite (digits_small t) by assumption. simpl.
    rewrite N.div_small, N.mod_small by assumption.
    rewrite !digits_small by lia. reflexivity.
  - rewrite (digits_step t) by assumption.
    pose proof (digits_nonempty (t / 10)) as Hlen.
    rewrite length_app. simpl length.
    destruct (_ <=? 1)%nat eqn:Hle; [apply Nat.leb_le in Hle; lia|].
    rewrite length_app. simpl length.
    replace (length (digits (t / 10)) + 1 - 1)%nat
      with (length (digits (t / 10))) by lia.
    rewrite take_app_length, drop_app_length.
    rewrite (digits_small (t mod 10)); [reflexivity|].
    apply N.mod_lt. lia.
Qed.

Lemma suffix_differs (x y : jsstring) (a b c d e : N) :
  b <> d -> x ++ [a; b; c] <> y ++ [d; e].
Proof.
  intros Hbd Heq. change (x ++ [a; b; c]) with (x ++ [a] ++ [b; c]) in Heq.
  rewrite app_assoc in Heq. apply app_inj_2 in Heq; [|reflexivity].
  destruct Heq as [_ [= ? _]]. contradiction.
Qed.

Lemma formatFileSize_B (b : Z) :
  0 <= b < 1024 -> formatFileSize b = digits (Z.to_N b) ++ str " B".
Proof.
  intros Hb. unfold formatFileSize, number_to_string.
  destruct (b <? 1024) eqn:H1; [|apply Z.ltb_ge in H1; lia].
  destruct (b <? 0) eqn:H0; [apply Z.ltb_lt in H0; lia|]. reflexivity.
Qed.

Lemma formatFileSize_KB (b : Z) :
  1024 <= b < 1048576 -> formatFileSize b = one_decimal b 1024 ++ str " KB".
Proof.
  intros Hb. unfold formatFileSize.
  destruct (b <? 1024) eqn:H1; [apply Z.ltb_lt in H1; lia|].
  destruct (b <? 1024 * 1024) eqn:H2; [|apply Z.ltb_ge in H2; lia].
  f_equal. apply (to_fixed_1_quotient b 1024). lia.
Qed.

Lemma formatFileSize_MB (b : Z) :
  1048576 <= b -> formatFileSize b = one_decimal b 1048576 ++ str " MB".
Proof.
  intros Hb. unfold formatFileSize.
  destruct (b <? 1024) eqn:H1; [apply Z.ltb_lt in H1; lia|].
  destruct (b <? 1024 * 1024) eqn:H2; [apply Z.ltb_lt in H2; lia|].
  f_equal. apply (to_fixed_1_quotient b 1048576). lia.
Qed.

(** C8. For a byte count [b] (an integer below 2^53, as [File.size] is),
    [formatFileSize b] is [b] in digits followed by " B" exactly when
    [b < 1024], is [b / 1024] with one decimal followed by " KB" exactly
    when [1024 <= b < 1048576], and is [b / 1048576] with one decimal
    followed by " MB" exactly when [1048576 <= b]: no unit is larger than
    MB and every count has a rendering. *)
Theorem formatFileSize_units (b : Z) :
  0 <= b < 2 ^ 53 ->
  (b < 1024 <-> formatFileSize b = digits (Z.to_N b) ++ str " B")
  /\ (1024 <= b < 1048576
      <-> formatFileSize b = one_decimal b 1024 ++ str " KB")
  /\ (1048576 <= b
      <-> formatFileSize b = one_decimal b 1048576 ++ str " MB").
Proof.
  intros [Hb _].
  assert (HB : forall x y : jsstring, x ++ str " KB" <> y ++ str " B")
    by (intros x y; apply suffix_differs; discriminate).
  assert (HM : forall x y : jsstring, x ++ str " MB" <> y ++ str " B")
    by (intros x y; apply suffix_differs; discriminate).
  assert (HK : forall x y : jsstring, x ++ str " KB" <> y ++ str " MB").
  { intros x y Heq. apply app_inj_2 in Heq; [|reflexivity].
    destruct Heq as [_ Heq]. discriminate Heq. }
  assert (Hsuffix : forall x y u v : jsstring,
             x ++ u = y ++ v ->
             (forall x y : jsstring, x ++ u <> y ++ v)
             \/ (forall x y : jsstring, x ++ v <> y ++ u) -> False).
  { intros x y u v Heq [Hne|Hne]; [|symmetry in Heq]; exact (Hne _ _ Heq). }
  destruct (Z.lt_ge_cases b 1024) as [H1|H1];
    [pose proof (formatFileSize_B b ltac:(lia)) as E
    |destruct (Z.lt_ge_cases b 1048576) as [H2|H2];
     [pose proof (formatFileSize_KB b ltac:(lia)) as E
     |pose proof (formatFileSize_MB b ltac:(lia)) as E]];
    (split; [split|split; split]); try (intros; lia); try (intros _; exact E);
    rewrite E; intros Heq; exfalso; apply (Hsuffix _ _ _ _ Heq); auto.
Qed.

Lemma formatFileSize_units_witness :
  0 <= 1536 < 2 ^ 53
  /\ formatFileSize 1536 = str "1.5 KB"
  /\ one_decimal 1536 1024 = str "1.5".
Proof.
  split; [lia|]. split; [|reflexivity].
  destruct (formatFileSize_units 1536 ltac:(lia)) as [_ [[HKB _] _]].
  rewrite HKB by lia. reflexivity.
Defined.

(** ** The front end *)

(** *** Reading a world that a handler has written *)

Lemma state_write_elem n f w : state (write_elem n f w) = state w.
Proof. reflexivity. Qed.
Lemma backend_write_elem n f w : backend (write_elem n f w) = backend w.
Proof. reflexivity. Qed.
Lemma effects_write_elem n f w : effects (write_elem n f w) = effects w.
Proof. reflexivity. Qed.
Lemma state_with_effect e w : state (with_effect e w) = state w.
Proof. reflexivity. Qed.
Lemma backend_with_effect e w : backend (with_effect e w) = backend w.
Proof. reflexivity. Qed.
Lemma dom_with_effect e w : dom (with_effect e w) = dom w.
Proof. reflexivity. Qed.
Lemma effects_with_effect e w : effects (with_effect e w) = effects w ++ [e].
Proof. reflexivity. Qed.
Lemma state_with_state s w : state (with_state s w) = s.
Proof. reflexivity. Qed.
Lemma backend_with_state s w : backend (with_state s w) = backend w.
Proof. reflexivity. Qed.
Lemma dom_with_state s w : dom (with_state s w) = dom w.
Proof. reflexivity. Qed.
Lemma effects_with_state s w : effects (with_state s w) = effects w.
Proof. reflexivity. Qed.

Lemma elem_write_elem_eq n f w :
  dom (write_elem n f w) !!! n = f (dom w !!! n).
Proof. unfold write_elem. simpl. apply lookup_total_insert_eq. Qed.

Lemma elem_write_elem_ne n m f w :
  n <> m -> dom (write_elem n f w) !!! m = dom w !!! m.
Proof. intros Hne. unfold write_elem. simpl. by apply lookup_total_insert_ne. Qed.

Lemma lookup_write_elem_ne n m f w :
  n <> m -> dom (write_elem n f w) !! m = dom w !! m.
Proof. intros Hne. unfold write_elem. simpl. by apply lookup_insert_ne. Qed.

Create Rewrite HintDb world.

#[local] Hint Rewrite state_write_elem backend_write_elem effects_write_elem
  state_with_effect backend_with_effect dom_with_effect effects_with_effect
  state_with_state backend_with_state dom_with_state effects_with_state
  elem_write_elem_eq : world.
#[local] Hint Rewrite elem_write_elem_ne using discriminate : world.

(** Unfolding of the handlers down to the writes; the writes themselves
    stay folded, and are read through the equations above. *)
Ltac steps :=
  cbn beta iota zeta delta
    [fst snd hasKey currentPublicKey selectedFile signedPdfData
     verifySelectedFile currentTab classList content disabled value files
     parentElement children set_classList set_content set_disabled negb];
  autorewrite with world.

Ltac handler :=
  unfold run, showError, showModal, hideModal, setButtonLoading, resetButton,
    readFileAsBytes, invoke, try_catch, modify_state, classList_add,
    classList_remove, set_textContent, set_innerHTML, set_disabled_of,
    modify_elem, get_elem, get_state, put_state, effect, await, throw, bind,
    ret;
  steps.

Ltac untouched :=
  let n := fresh "n" in
  let Hn := fresh "Hn" in
  intros n Hn; steps;
  repeat (rewrite dom_with_effect || rewrite dom_with_state
          || rewrite lookup_write_elem_ne
               by (intros <-; apply Hn; repeat constructor));
  reflexivity.

(** A node is none of those of a list. *)
Ltac other_node :=
  repeat (apply not_elem_of_cons; split; [discriminate|]);
  apply not_elem_of_nil.

Lemma removed_class_absent (c : string) (s : gset string) : c ∉ s ∖ {[c]}.
Proof. rewrite elem_of_difference, elem_of_singleton. tauto. Qed.

Lemma added_class_present (c : string) (s : gset string) : c ∈ {[c]} ∪ s.
Proof. rewrite elem_of_union, elem_of_singleton. tauto. Qed.

(** A handler whose first step in a [try] is a command that the engine
    refuses goes to its [catch] with the refusal. *)
Lemma try_catch_invoke_failure {A B} (c : Command)
    (answer : Backend -> Err + A) (k : A -> M B) (handler : Err -> M B)
    (w : World) (e : Err) :
  answer (backend w) = inl e ->
  try_catch (bind (invoke c answer) k) handler w
  = handler e (with_effect (Invoked c) w).
Proof.
  intros He. unfold try_catch, bind, invoke. rewrite He. reflexivity.
Qed.

Lemma showModal_returns (overlay title body : node) (t c : jsstring)
    (w : World) :
  showModal overlay title body t c w
  = (fst (showModal overlay title body t c w), inr tt).
Proof. reflexivity. Qed.

Section FrontEnd.

Variable inner_text : jsstring -> jsstring.

(** C3. When the signer name is empty or consists of white space only,
    [signPdf] stops at its guard: no command is sent to the engine, the
    state (and with it the stored signed document) is as before, the modal
    reports the validation error, no other element changes, and the sign
    button is disabled for such a name. *)
Theorem signPdf_rejects_blank_name (w : World) :
  forallb is_white_space (value (dom w !!! elements.signerNameInput)) = true ->
  let w' := run (signPdf inner_text) w in
  effects w' = effects w
  /\ state w' = state w
  /\ backend w' = backend w
  /\ modal_shows_error w'
       (str "Please enter your name and select a PDF file.")
  /\ outside modal_nodes w w'
  /\ disabled (dom (run updateSignButton w) !!! btnSign) = true.
Proof.
  intros Hblank w'. subst w'.
  unfold signPdf, updateSignButton, sign_inputs_missing. handler.
  rewrite (trim_blank _ Hblank), orb_true_r. steps.
  split; [reflexivity|]. split; [reflexivity|]. split; [reflexivity|].
  split; [|split].
  - repeat split; steps; try reflexivity. apply removed_class_absent.
  - untouched.
  - steps. reflexivity.
Qed.

(** C4. When a run of [signPdf] fails, at the guard, at reading the file
    or in the engine, the state is as before: the selected file and its
    bytes, and the stored signed document. The failure is reported in
    the modal, and apart from the modal only the sign button is
    written. *)
Theorem signPdf_failure_keeps_state (w : World) (msg : jsstring) :
  sign_failure w msg ->
  let w' := run (signPdf inner_text) w in
  state w' = state w
  /\ signedPdfData (state w') = signedPdfData (state w)
  /\ selectedFile (state w') = selectedFile (state w)
  /\ backend w' = backend w
  /\ modal_shows_error w' msg
  /\ outside (btnSign :: modal_nodes) w w'.
Proof.
  intros Hfail w'. subst w'.
  destruct Hfail as [Hm|file e Hm Hfile He|file pdfBytes e Hm Hfile Hbytes He];
    unfold inputs_missing in Hm;
    unfold signPdf, sign_inputs_missing; handler; rewrite Hm; steps.
  - repeat split; steps; try (reflexivity || assumption).
    + apply removed_class_absent.
    + untouched.
  - rewrite Hfile. steps. rewrite He. steps.
    repeat split; steps; try (reflexivity || assumption).
    + apply removed_class_absent.
    + untouched.
  - rewrite Hfile. steps. rewrite Hbytes. steps.
    unfold request_of in He. rewrite He. steps.
    repeat split; steps; try (reflexivity || assumption).
    + apply removed_class_absent.
    + untouched.
Qed.

(** A run that passes the guard, reads the file and is answered by the
    engine stores the signed document of the answer. *)
Lemma signPdf_success (w : World) file pdfBytes response :
  inputs_missing w = false ->
  selectedFile (state w) = Some file ->
  file_arrayBuffer file = inr pdfBytes ->
  on_sign_pdf (backend w) (request_of w pdfBytes) = inr response ->
  let w' := run (signPdf inner_text) w in
  signedPdfData (state w') = Some (signed_pdf response)
  /\ effects w' = effects w ++ [Invoked (sign_pdf (request_of w pdfBytes));
                                ScrollIntoView elements.resultSection].
Proof.
  intros Hm Hfile Hbytes Hok w'. subst w'.
  unfold inputs_missing in Hm.
  unfold signPdf, sign_inputs_missing, displaySignResult. handler.
  rewrite Hm. steps. cbn [signedPdfData set_signedPdfData].
  rewrite Hfile. steps. rewrite Hbytes. steps.
  unfold request_of in Hok. rewrite Hok. steps.
  split; [reflexivity|]. rewrite <- app_assoc. reflexivity.
Qed.

(** The three failures are all there are: a run from any world either
    is one of them or meets the conditions of the success above. *)
Lemma sign_outcomes (w : World) :
  (exists msg, sign_failure w msg)
  \/ (exists file pdfBytes response,
        inputs_missing w = false
        /\ selectedFile (state w) = Some file
        /\ file_arrayBuffer file = inr pdfBytes
        /\ on_sign_pdf (backend w) (request_of w pdfBytes) = inr response).
Proof.
  destruct (inputs_missing w) eqn:Hm.
  { left. eexists. apply fail_inputs. assumption. }
  destruct (selectedFile (state w)) as [file|] eqn:Hfile.
  2:{ unfold inputs_missing in Hm. rewrite Hfile in Hm. discriminate. }
  destruct (file_arrayBuffer file) as [e|pdfBytes] eqn:Hbytes.
  { left. eexists. eapply fail_read; eassumption. }
  destruct (on_sign_pdf (backend w) (request_of w pdfBytes)) as [e|r] eqn:He.
  { left. eexists. eapply fail_engine; eassumption. }
  right. eauto 8.
Qed.

(** A refused key request runs the [catch] of its handler and nothing
    of its [try] beyond the command. *)
Lemma key_handler_failure (r : KeyRequest) (w : World) (e : Err) :
  key_answer r (backend w) = inl e ->
  key_handler r w
  = (hideModal modalOverlay ;;
     showError modalOverlay modalTitle modalContent (key_failure_message r e))
      (with_effect
         (Invoked match r with
                  | Generate => generate_keypair
                  | Import priv pub => import_key priv pub
                  end)
         match r with
         | Generate =>
             fst (showModal modalOverlay modalTitle modalContent
                    (str "Generate Keypair")
                    (str "<p class=" ++ dq ++ str "message info" ++ dq
                     ++ str ">Generating RSA keypair...</p>") w)
         | Import _ _ => w
         end).
Proof.
  intros He. destruct r as [|priv pub]; simpl in He;
    unfold key_handler, generateKeypair, importKey;
    [unfold bind at 1; rewrite showModal_returns|];
    rewrite try_catch_invoke_failure with (e := e) by exact He;
    reflexivity.
Qed.

(** C10. When generating or importing a key fails, the state is as
    before, so [hasKey] and [currentPublicKey] keep their values; no
    element outside the modal is written, so the key view is not
    switched; and the modal reports the failure. *)
Theorem key_failure_keeps_state (r : KeyRequest) (w : World) (e : Err) :
  key_answer r (backend w) = inl e ->
  let w' := run (key_handler r) w in
  state w' = state w
  /\ hasKey (state w') = hasKey (state w)
  /\ currentPublicKey (state w') = currentPublicKey (state w)
  /\ backend w' = backend w
  /\ outside modal_nodes w w'
  /\ modal_shows_error w' (key_failure_message r e).
Proof.
  intros He w'. subst w'. unfold run.
  rewrite (key_handler_failure r w e He).
  destruct r as [|priv pub]; handler;
    (repeat split; steps; try reflexivity;
     [untouched | apply removed_class_absent]).
Qed.

(** C9. A file whose type does not contain "pdf" is ignored by
    [handleFileSelect]: the callback is not run and the world is as it
    was, whatever the callback and the elements. So the change listener
    leaves the world as it was, and the drop listener does only what it
    does before the selection: it cancels the event and clears its
    highlight. *)
Theorem handleFileSelect_ignores_non_pdf (file : File)
    (onFileSelect : File -> M unit)
    (onFileInfo fileNameEl fileSizeEl : option node) (w : World) :
  includes (file_type file) (str "pdf") = false ->
  handleFileSelect file onFileSelect onFileInfo fileNameEl fileSizeEl w
  = (w, inr tt)
  /\ (forall fileInput rest,
        files (dom w !!! fileInput) = Some (file :: rest) ->
        setupDropZone_change fileInput onFileSelect onFileInfo fileNameEl
          fileSizeEl w = (w, inr tt))
  /\ (forall dropZone rest,
        setupDropZone_drop dropZone onFileSelect onFileInfo fileNameEl
          fileSizeEl (Some (file :: rest)) w
        = (effect PreventDefault ;; classList_remove dropZone "drag-over") w).
Proof.
  intros Htype.
  assert (Hsel : forall w0,
             handleFileSelect file onFileSelect onFileInfo fileNameEl
               fileSizeEl w0 = (w0, inr tt)).
  { intros w0. unfold handleFileSelect. rewrite Htype. reflexivity. }
  split; [apply Hsel|]. split.
  - intros fileInput rest Hfiles.
    unfold setupDropZone_change, bind, get_elem. rewrite Hfiles. apply Hsel.
  - intros dropZone rest. unfold setupDropZone_drop, bind.
    cbn -[handleFileSelect]. apply Hsel.
Qed.

End FrontEnd.

(** ** The engine *)

Section EngineLaws.

Import Engine.

Context `{Crypto} `{DocumentFormat}.

Hypothesis format_round_trips : round_trips.

Lemma range_bytes_prefix (content update : list byte) :
  range_bytes {| range_start := 0; range_length := length content |}
    (content ++ update) = content.
Proof using Type. unfold range_bytes. simpl. apply take_app_length. Qed.

Lemma computeRange_appended (content : list byte) r w :
  computeRange (content ++ serialize r w)
  = inr {| range_start := 0; range_length := length content |}.
Proof.
  unfold computeRange. rewrite format_round_trips.
  rewrite decide_True; [reflexivity|]. rewrite length_app. lia.
Qed.

(** What a successful signing returns. *)
Lemma sign_result (pdfBytes : list byte) name ext now st kp range :
  resident st = Some kp ->
  name <> EmptyString ->
  computeRange pdfBytes = inr range ->
  let content := range_bytes range pdfBytes in
  let r := {| signerName := name; timestamp := now; extra := ext;
              signatureBytes :=
                rsa_sign RSA_PSS (privateKey kp) (digest SHA256 content);
              digestAlgorithm := SHA256; signatureAlgorithm := RSA_PSS |} in
  sign pdfBytes name ext now st
  = (inr {| signedPdfBytes :=
              content ++ serialize r (render_watermark name now ext);
            signatureInfo := r |}, st).
Proof using Type.
  intros Hkp Hname Hrange. unfold sign, and_then, read_state. simpl.
  rewrite Hkp. rewrite decide_False by assumption. rewrite Hrange.
  reflexivity.
Qed.

(** A signing that succeeded had a key, a name and a valid document,
    and its output is the canonical content followed by the update. *)
Lemma sign_inv (pdfBytes : list byte) name ext now st out st' :
  sign pdfBytes name ext now st = (inr out, st') ->
  st' = st /\ name <> EmptyString
  /\ exists kp range, resident st = Some kp
       /\ computeRange pdfBytes = inr range
       /\ signedPdfBytes out
          = range_bytes range pdfBytes
            ++ serialize (signatureInfo out) (render_watermark name now ext).
Proof using Type.
  unfold sign, and_then, read_state, fail, pure. simpl.
  destruct (resident st) as [kp|]; [|discriminate].
  case_decide; [discriminate|].
  destruct (computeRange pdfBytes) as [e|range]; [discriminate|].
  intros [= <- <-]. simpl. eauto 8.
Qed.

(** Verifying a document that ends in a record. *)
Lemma verify_appended (content : list byte) r w st kp :
  resident st = Some kp ->
  verify (content ++ serialize r w) st
  = (inr (if rsa_verify (signatureAlgorithm r) (publicKey kp)
               (digest (digestAlgorithm r) content) (signatureBytes r)
          then {| isSigned := true; record := Some r; message := "valid" |}
          else {| isSigned := false; record := Some r;
                  message := "signature does not match content" |}), st).
Proof.
  intros Hkp. unfold verify. rewrite format_round_trips.
  rewrite computeRange_appended, range_bytes_prefix.
  unfold and_then, resident_public_key, and_then, read_state. simpl.
  rewrite Hkp. simpl. destruct (rsa_verify _ _ _ _); reflexivity.
Qed.

(** C1. With a resident keypair whose halves correspond, signing a valid
    PDF under a non-empty name succeeds, and verifying the signed bytes
    reports [isSigned = true], with the record just made. *)
Theorem sign_then_verify (pdfBytes : list byte) name ext now st kp :
  resident st = Some kp ->
  corresponds kp ->
  valid_pdf pdfBytes ->
  name <> EmptyString ->
  exists out,
    sign pdfBytes name ext now st = (inr out, st)
    /\ verify (signedPdfBytes out) st
       = (inr {| isSigned := true; record := Some (signatureInfo out);
                 message := "valid" |}, st).
Proof.
  intros Hkp Hcorr [range Hrange] Hname.
  eexists. split; [apply (sign_result _ _ _ _ _ _ _ Hkp Hname Hrange)|].
  cbn [signedPdfBytes signatureInfo].
  rewrite (verify_appended _ _ _ _ _ Hkp). cbn.
  rewrite Hcorr. reflexivity.
Qed.

(** C6. Signing an already signed document again under a name [name2]
    gives exactly what signing the original under [name2] gives: the
    earlier record is not carried along. Verifying the result reports
    the record of [name2]. *)
Theorem resign_replaces (pdfBytes : list byte) name1 ext1 now1
    name2 ext2 now2 st out1 :
  sign pdfBytes name1 ext1 now1 st = (inr out1, st) ->
  name2 <> EmptyString ->
  exists out2 result,
    sign (signedPdfBytes out1) name2 ext2 now2 st = (inr out2, st)
    /\ sign pdfBytes name2 ext2 now2 st = (inr out2, st)
    /\ verify (signedPdfBytes out2) st = (inr result, st)
    /\ record result = Some (signatureInfo out2)
    /\ signerName (signatureInfo out2) = name2
    /\ timestamp (signatureInfo out2) = now2
    /\ extra (signatureInfo out2) = ext2.
Proof.
  intros Hsign1 Hname2.
  destruct (sign_inv _ _ _ _ _ _ _ Hsign1)
    as (_ & _ & kp & range & Hkp & Hrange & Hbytes1).
  pose proof (sign_result pdfBytes name2 ext2 now2 st kp range
                Hkp Hname2 Hrange) as Hdirect.
  cbn zeta in Hdirect.
  assert (Hagain : computeRange (signedPdfBytes out1)
                   = inr {| range_start := 0;
                            range_length :=
                              length (range_bytes range pdfBytes) |}).
  { rewrite Hbytes1. apply computeRange_appended. }
  pose proof (sign_result (signedPdfBytes out1) name2 ext2 now2 st kp _
                Hkp Hname2 Hagain) as Hre.
  cbn zeta in Hre.
  assert (Hcontent :
            range_bytes {| range_start := 0;
                           range_length :=
                             length (range_bytes range pdfBytes) |}
              (signedPdfBytes out1) = range_bytes range pdfBytes).
  { rewrite Hbytes1. apply range_bytes_prefix. }
  rewrite Hcontent in Hre.
  eexists. eexists. split; [exact Hre|]. split; [exact Hdirect|].
  cbn [signedPdfBytes signatureInfo].
  rewrite (verify_appended _ _ _ _ _ Hkp).
  split; [reflexivity|]. split; [|repeat split].
  destruct (rsa_verify _ _ _ _); reflexivity.
Qed.

End EngineLaws.

(** ** Verification, from the engine to the verify tab *)

Section Verification.

Context `{Engine.Crypto} `{Engine.DocumentFormat}.

Variable inner_text : jsstring -> jsstring.

(** What [verifyPdf] shows for an answer that is not a positive one: the
    error panel with the message, the details panel hidden and its fields
    not written; the modal is not raised. *)
Lemma verifyPdf_negative_answer (w : World) file pdfBytes response :
  verifySelectedFile (state w) = Some file ->
  file_arrayBuffer file = inr pdfBytes ->
  on_verify_pdf (backend w) pdfBytes = inr response ->
  is_signed response = false ->
  let w' := run (verifyPdf inner_text) w in
  content (dom w' !!! elements.verifyErrorMessage) = Text (message response)
  /\ ("hidden" ∉ classList (dom w' !!! elements.verifyError))
  /\ ("hidden" ∈ classList (dom w' !!! elements.verifySuccess))
  /\ ("hidden" ∈ classList (dom w' !!! elements.verifyDetails))
  /\ outside [btnVerify; elements.verifyResult; elements.verifySuccess;
              elements.verifyError; elements.verifyDetails;
              elements.verifyErrorMessage] w w'.
Proof.
  intros Hfile Hbytes Hanswer Hneg w'. subst w'. unfold verifyPdf. handler.
  rewrite Hfile. steps. rewrite Hbytes. steps.
  rewrite Hanswer. steps. rewrite Hneg. steps.
  split; [steps; reflexivity|].
  split; [steps; apply removed_class_absent|].
  split; [steps; apply added_class_present|].
  split; [steps; apply added_class_present|].
  untouched.
Qed.

(** [verifyPdf] writes neither the state nor the engine. *)
Lemma verifyPdf_keeps_state (w : World) :
  state (run (verifyPdf inner_text) w) = state w
  /\ backend (run (verifyPdf inner_text) w) = backend w.
Proof.
  unfold verifyPdf. handler.
  destruct (verifySelectedFile (state w)) as [file|]; [|split; reflexivity].
  steps. destruct (file_arrayBuffer file) as [e|pdfBytes]; steps;
    [split; reflexivity|].
  destruct (on_verify_pdf (backend w) pdfBytes) as [e|response]; steps;
    [split; reflexivity|].
  destruct (is_signed response), (v_signature_info response);
    split; reflexivity.
Qed.

(** C2, as the code has it. When a record is located and the
    cryptographic check fails, the result of the engine still carries the
    record, with [isSigned = false] and the mismatch message. The verify
    tab shows of such an answer the message only: the details panel is
    hidden and the fields of the record are not written. *)
Theorem mismatch_keeps_record_hidden_in_tab (pdfBytes : list byte) offset r
    st kp (w : World) file response :
  Engine.locate pdfBytes = Engine.Found offset r ->
  (offset <= length pdfBytes)%nat ->
  Engine.resident st = Some kp ->
  Engine.rsa_verify (Engine.signatureAlgorithm r) (Engine.publicKey kp)
    (Engine.digest (Engine.digestAlgorithm r) (take offset pdfBytes))
    (Engine.signatureBytes r) = false ->
  verifySelectedFile (state w) = Some file ->
  file_arrayBuffer file = inr pdfBytes ->
  on_verify_pdf (backend w) pdfBytes = inr response ->
  is_signed response = false ->
  Engine.verify pdfBytes st
  = (inr {| Engine.isSigned := false; Engine.record := Some r;
            Engine.message := "signature does not match content" |}, st)
  /\ let w' := run (verifyPdf inner_text) w in
     content (dom w' !!! elements.verifyErrorMessage) = Text (message response)
     /\ ("hidden" ∉ classList (dom w' !!! elements.verifyError))
     /\ ("hidden" ∈ classList (dom w' !!! elements.verifyDetails))
     /\ Forall (fun n => dom w' !! n = dom w !! n) detail_nodes.
Proof.
  intros Hloc Hoff Hkp Hcheck Hfile Hbytes Hanswer Hneg. split.
  - unfold Engine.verify, Engine.computeRange. rewrite Hloc.
    rewrite decide_True by assumption.
    unfold Engine.and_then, Engine.resident_public_key, Engine.and_then,
      Engine.read_state, Engine.range_bytes. simpl.
    rewrite Hkp. simpl. rewrite drop_0, Hcheck. reflexivity.
  - destruct (verifyPdf_negative_answer w file pdfBytes response
                Hfile Hbytes Hanswer Hneg) as (Hmsg & Herr & _ & Hdet & Hout).
    split; [exact Hmsg|]. split; [exact Herr|]. split; [exact Hdet|].
    unfold detail_nodes. repeat (apply Forall_cons; split; [apply Hout; other_node|]).
    apply Forall_nil_2.
Qed.

(** C5. For a document in which no record is found, the engine returns,
    whatever its key state, [isSigned = false] without a record and with
    the message "not signed", as a result and not as an error; the
    verify tab shows that message in its error panel and raises no
    modal. *)
Theorem unsigned_reports_not_signed (pdfBytes : list byte) st
    (w : World) file :
  Engine.unsigned pdfBytes ->
  verifySelectedFile (state w) = Some file ->
  file_arrayBuffer file = inr pdfBytes ->
  on_verify_pdf (backend w) pdfBytes = inr unsigned_answer ->
  Engine.verify pdfBytes st
  = (inr {| Engine.isSigned := false; Engine.record := None;
            Engine.message := "not signed" |}, st)
  /\ let w' := run (verifyPdf inner_text) w in
     content (dom w' !!! elements.verifyErrorMessage) = Text (str "not signed")
     /\ ("hidden" ∉ classList (dom w' !!! elements.verifyError))
     /\ ("hidden" ∈ classList (dom w' !!! elements.verifySuccess))
     /\ dom w' !! modalOverlay = dom w !! modalOverlay
     /\ dom w' !! modalTitle = dom w !! modalTitle
     /\ dom w' !! modalContent = dom w !! modalContent.
Proof.
  intros Hunsigned Hfile Hbytes Hanswer. split.
  - unfold Engine.verify. destruct Hunsigned as [-> | ->]; reflexivity.
  - destruct (verifyPdf_negative_answer w file pdfBytes unsigned_answer
                Hfile Hbytes Hanswer eq_refl) as (Hmsg & Herr & Hok & _ & Hout).
    split; [exact Hmsg|]. split; [exact Herr|]. split; [exact Hok|].
    repeat split; apply Hout; other_node.
Qed.

(** C7. The result of verification depends on the document and on the
    resident public key only: two engine states with the same public key
    give the same result, and verification leaves the engine state as it
    was. In the front end [verifyPdf] writes neither the application
    state (the selected document, the key fields) nor the engine. *)
Theorem verify_is_pure (pdfBytes : list byte) (st st' : Engine.EngineState)
    (w : World) :
  option_map Engine.publicKey (Engine.resident st)
  = option_map Engine.publicKey (Engine.resident st') ->
  fst (Engine.verify pdfBytes st) = fst (Engine.verify pdfBytes st')
  /\ snd (Engine.verify pdfBytes st) = st
  /\ state (run (verifyPdf inner_text) w) = state w
  /\ backend (run (verifyPdf inner_text) w) = backend w.
Proof.
  intros Hkey.
  assert (Hst : forall s, snd (Engine.verify pdfBytes s) = s).
  { intros s. unfold Engine.verify.
    destruct (Engine.locate pdfBytes); try reflexivity.
    destruct (Engine.computeRange pdfBytes); [reflexivity|].
    unfold Engine.and_then, Engine.resident_public_key, Engine.and_then,
      Engine.read_state. simpl.
    destruct (Engine.resident s); simpl; [|reflexivity].
    destruct (Engine.rsa_verify _ _ _ _); reflexivity. }
  split; [|split; [apply Hst|apply verifyPdf_keeps_state]].
  unfold Engine.verify.
  destruct (Engine.locate pdfBytes); try reflexivity.
  destruct (Engine.computeRange pdfBytes); [reflexivity|].
  unfold Engine.and_then, Engine.resident_public_key, Engine.and_then,
    Engine.read_state. simpl.
  destruct (Engine.resident st) as [kp|], (Engine.resident st') as [kp'|];
    simpl in Hkey; try discriminate; [|reflexivity].
  injection Hkey as ->. simpl.
  destruct (Engine.rsa_verify _ _ _ _); reflexivity.
Qed.

End Verification.

(** ** The reference instance satisfies the laws *)

Section ReferenceLaws.

Import Engine Reference.

Lemma dec_enc_bytes (l rest : list byte) :
  dec_bytes (enc_bytes l ++ rest) = Some (l, rest).
Proof.
  induction l as [|b l IH]; simpl; [reflexivity|]. rewrite IH. reflexivity.
Qed.

Lemma dec_enc_text (s : string) (rest : list byte) :
  dec_text (enc_text s ++ rest) = Some (s, rest).
Proof.
  unfold dec_text, enc_text. rewrite dec_enc_bytes.
  rewrite string_of_list_byte_of_string. reflexivity.
Qed.

Lemma dec_enc_opt_text (o : option string) (rest : list byte) :
  dec_opt_text (enc_opt_text o ++ rest) = Some (o, rest).
Proof.
  destruct o as [s|]; simpl; [|reflexivity].
  rewrite dec_enc_text. reflexivity.
Qed.

Lemma dec_enc_record (r : SignatureRecord) (w rest : list byte) :
  dec_record (enc_record r w ++ rest) = Some (r, rest).
Proof.
  destruct r as [n t e s da sa]. unfold enc_record, dec_record.
  cbn [signerName timestamp extra signatureBytes digestAlgorithm
       signatureAlgorithm app].
  replace (dec_digest_alg (enc_digest_alg da)) with (Some da)
    by (destruct da; reflexivity).
  replace (dec_signature_alg (enc_signature_alg sa)) with (Some sa)
    by (destruct sa; reflexivity).
  rewrite <- !app_assoc.
  rewrite dec_enc_text, dec_enc_text, dec_enc_opt_text, dec_enc_bytes,
    dec_enc_bytes.
  reflexivity.
Qed.

Lemma reference_round_trips : @round_trips format.
Proof.
  intros content r w. cbn [locate serialize format]. unfold ref_locate.
  rewrite rev_app_distr, rev_involutive. cbn [app].
  rewrite decide_True by reflexivity.
  rewrite dec_enc_record, length_rev. reflexivity.
Qed.

Lemma reference_corresponds (k : list byte) :
  @corresponds crypto {| publicKey := k : @PublicKey crypto;
                         privateKey := k : @PrivateKey crypto |}.
Proof.
  intros alg d. cbn. apply bool_decide_eq_true. reflexivity.
Qed.

End ReferenceLaws.

(** ** The properties at work on concrete pages and documents *)

Lemma signPdf_rejects_blank_name_witness :
  let w := signing pdf (str "  ") in
  effects (run (signPdf (fun s => s)) w) = []
  /\ signedPdfData (state (run (signPdf (fun s => s)) w)) = None.
Proof.
  intros w.
  destruct (signPdf_rejects_blank_name (fun s => s) w eq_refl)
    as (Heff & Hst & _).
  split; [exact Heff|]. rewrite Hst. reflexivity.
Defined.

Lemma signPdf_failure_keeps_state_witness :
  let w := signing unreadable (str "Ann") in
  sign_failure w (str "Failed to sign PDF: NotFoundError")
  /\ state (run (signPdf (fun s => s)) w) = state w.
Proof.
  intros w.
  assert (Hfail : sign_failure w (str "Failed to sign PDF: NotFoundError")).
  { apply (fail_read w unreadable (str "NotFoundError")); reflexivity. }
  split; [exact Hfail|].
  exact (proj1 (signPdf_failure_keeps_state (fun s => s) w _ Hfail)).
Defined.

Lemma handleFileSelect_ignores_non_pdf_witness :
  includes (file_type png) (str "pdf") = false
  /\ handleFileSelect png (onSignFileSelect) (Some elements.fileInfo)
       (Some elements.fileName) (Some elements.fileSize) blank
     = (blank, inr tt).
Proof.
  split; [reflexivity|].
  exact (proj1 (handleFileSelect_ignores_non_pdf png onSignFileSelect
                  (Some elements.fileInfo) (Some elements.fileName)
                  (Some elements.fileSize) blank eq_refl)).
Defined.

Lemma key_failure_keeps_state_witness :
  key_answer Generate (backend blank) = inl (str "random source unavailable")
  /\ state (run generateKeypair blank) = state blank
  /\ state (run (importKey (str "priv") (str "pub")) blank) = state blank.
Proof.
  split; [reflexivity|]. split.
  - exact (proj1 (key_failure_keeps_state Generate blank _ eq_refl)).
  - exact (proj1 (key_failure_keeps_state (Import (str "priv") (str "pub"))
                    blank (str "key mismatch") eq_refl)).
Defined.

Lemma sign_then_verify_witness :
  exists out,
    Engine.sign Reference.plain "Ann" None "2024-01-01T00:00:00Z"
      Reference.loaded = (inr out, Reference.loaded)
    /\ fst (Engine.verify (Engine.signedPdfBytes out) Reference.loaded)
       = inr {| Engine.isSigned := true;
                Engine.record := Some (Engine.signatureInfo out);
                Engine.message := "valid" |}.
Proof.
  destruct (sign_then_verify reference_round_trips Reference.plain "Ann" None
              "2024-01-01T00:00:00Z" Reference.loaded Reference.keypair
              eq_refl (reference_corresponds _)
              (ex_intro _ _ eq_refl) ltac:(discriminate))
    as (out & Hsign & Hverify).
  exists out. split; [exact Hsign|]. rewrite Hverify. reflexivity.
Defined.

Lemma resign_replaces_witness :
  exists out2 result,
    Engine.sign (Engine.signedPdfBytes Reference.ann_signed) "Bob" None
      "2024-02-02T00:00:00Z" Reference.loaded = (inr out2, Reference.loaded)
    /\ Engine.verify (Engine.signedPdfBytes out2) Reference.loaded
       = (inr result, Reference.loaded)
    /\ option_map Engine.signerName (Engine.record result) = Some "Bob"%string.
Proof.
  destruct (resign_replaces reference_round_trips Reference.plain "Ann" None
              "2024-01-01T00:00:00Z" "Bob" None "2024-02-02T00:00:00Z"
              Reference.loaded Reference.ann_signed eq_refl
              ltac:(discriminate))
    as (out2 & result & Hre & _ & Hverify & Hrecord & Hname & _).
  exists out2, result. split; [exact Hre|]. split; [exact Hverify|].
  rewrite Hrecord. simpl. rewrite Hname. reflexivity.
Defined.

(** C2, as stated, fails on the verify tab: the engine finds Ann's record
    in her signed document and, the resident key being another one,
    returns it with [isSigned = false]; for such an answer the tab does
    not display the record. *)
Lemma tampered_record_not_displayed :
  fst (Engine.verify (Engine.signedPdfBytes Reference.ann_signed)
         {| Engine.resident := Some Reference.other_keypair |})
  = inr {| Engine.isSigned := false;
           Engine.record := Some Reference.ann_record;
           Engine.message := "signature does not match content" |}
  /\ ~ displays_record
         (run (verifyPdf (fun s => s)) (verifying signed_pdf_file tampered_answer))
         ann_info.
Proof.
  split; [reflexivity|].
  intros [Hvisible _]. apply Hvisible.
  apply (bool_decide_unpack _). vm_compute. exact I.
Qed.

Lemma mismatch_keeps_record_hidden_in_tab_witness :
  let w' := run (verifyPdf (fun s => s))
              (verifying signed_pdf_file tampered_answer) in
  content (dom w' !!! elements.verifyErrorMessage)
  = Text (str "signature does not match content")
  /\ "hidden" ∈ classList (dom w' !!! elements.verifyDetails).
Proof.
  intros w'.
  destruct (@mismatch_keeps_record_hidden_in_tab Reference.crypto
              Reference.format (fun s => s)
              (Engine.signedPdfBytes Reference.ann_signed) 4
              Reference.ann_record
              {| Engine.resident := Some Reference.other_keypair |}
              Reference.other_keypair
              (verifying signed_pdf_file tampered_answer) signed_pdf_file
              tampered_answer
              ltac:(vm_compute; reflexivity) ltac:(simpl; lia) eq_refl
              ltac:(vm_compute; reflexivity) eq_refl eq_refl eq_refl eq_refl)
    as (_ & Hmsg & _ & Hdetails & _).
  split; [exact Hmsg|exact Hdetails].
Defined.

Lemma unsigned_reports_not_signed_witness :
  Engine.unsigned Reference.plain
  /\ fst (Engine.verify Reference.plain {| Engine.resident := None |})
     = inr {| Engine.isSigned := false; Engine.record := None;
              Engine.message := "not signed" |}.
Proof.
  assert (Hunsigned : Engine.unsigned Reference.plain) by (left; reflexivity).
  split; [exact Hunsigned|].
  destruct (@unsigned_reports_not_signed Reference.crypto Reference.format
              (fun s => s) Reference.plain
              {| Engine.resident := None |} (verifying pdf unsigned_answer)
              pdf Hunsigned eq_refl eq_refl eq_refl) as [Hverify _].
  rewrite Hverify. reflexivity.
Defined.

Lemma verify_is_pure_witness :
  fst (Engine.verify (Engine.signedPdfBytes Reference.ann_signed)
         Reference.loaded)
  = fst (Engine.verify (Engine.signedPdfBytes Reference.ann_signed)
           {| Engine.resident := Some Reference.mismatched_keypair |}).
Proof.
  exact (proj1 (@verify_is_pure Reference.crypto Reference.format
                  (fun s => s)
                  (Engine.signedPdfBytes Reference.ann_signed)
                  Reference.loaded
                  {| Engine.resident := Some Reference.mismatched_keypair |}
                  blank eq_refl)).
Defined.

(** * Further properties of the front end *)

(** ** Trimmed input *)

Lemma last_rev (s : jsstring) : last (rev s) = head s.
Proof. destruct s as [|c s]; [reflexivity|]. simpl. apply last_snoc. Qed.

Lemma head_rev (s : jsstring) : head (rev s) = last s.
Proof. rewrite <- (rev_involutive s) at 2. symmetry. apply last_rev. Qed.

Lemma trim_start_last (s : jsstring) c :
  last (trim_start s) = Some c -> last s = Some c.
Proof.
  destruct (trim_start_split s) as [blanks [Heq _]]. intros Hlast.
  rewrite Heq. rewrite last_app, Hlast. reflexivity.
Qed.

Lemma trim_start_head_solid (s : jsstring) c :
  head (trim_start s) = Some c -> is_white_space c = false.
Proof.
  induction s as [|a s IH]; simpl; [discriminate|].
  destruct (is_white_space a) eqn:Ha; [assumption|].
  simpl. intros [= <-]. assumption.
Qed.

(** What [trim] returns has no white space at either end. *)
Lemma trim_blank_free_ends (s : jsstring) : blank_free_ends (trim s).
Proof.
  unfold blank_free_ends, trim, trim_end. split; intros c.
  - rewrite head_rev. intros Hlast%trim_start_last.
    rewrite last_rev in Hlast. eapply trim_start_head_solid, Hlast.
  - rewrite last_rev. apply trim_start_head_solid.
Qed.

(** A name survives trimming exactly when it is not blank. *)
Lemma truthy_trim (s : jsstring) :
  truthy (trim s) = true <-> forallb is_white_space s = false.
Proof.
  pose proof (trim_empty_iff s) as Htrim.
  destruct (trim s) as [|c t]; destruct (forallb is_white_space s); simpl;
    split; intros Hx; try reflexivity; try discriminate.
  - destruct Htrim as [Ht _]. specialize (Ht eq_refl). discriminate.
  - destruct Htrim as [_ Ht]. specialize (Ht eq_refl). discriminate.
Qed.

(** ** Signing and verifying, when they succeed *)

Section FrontEndRuns.

Variable inner_text : jsstring -> jsstring.

(** X1. [updateSignButton] enables the sign button exactly when a file is
    selected and the signer name has a character that is not white
    space; it writes nothing but the button. *)
Theorem updateSignButton_enabled_iff (w : World) :
  let w' := run updateSignButton w in
  (disabled (dom w' !!! btnSign) = false
   <-> is_Some (selectedFile (state w))
       /\ forallb is_white_space (value (dom w !!! elements.signerNameInput))
          = false)
  /\ state w' = state w
  /\ effects w' = effects w
  /\ outside [btnSign] w w'.
Proof.
  intros w'. subst w'. unfold updateSignButton, sign_inputs_missing. handler.
  split; [|split; [reflexivity|split; [reflexivity|untouched]]].
  steps. rewrite orb_false_iff, !negb_false_iff, bool_decide_eq_true.
  rewrite truthy_trim. reflexivity.
Qed.

(** X2. A run of [signPdf] that gets to the engine sends one command, and
    the name in it is not empty and has no white space at either end;
    neither has the extra text it carries. *)
Theorem signPdf_sends_trimmed_name (w : World) file pdfBytes :
  inputs_missing w = false ->
  selectedFile (state w) = Some file ->
  file_arrayBuffer file = inr pdfBytes ->
  let request := request_of w pdfBytes in
  (exists rest,
     effects (run (signPdf inner_text) w)
     = effects w ++ Invoked (sign_pdf request) :: rest
     /\ Forall (fun e => forall c, e <> Invoked c) rest)
  /\ name request <> []
  /\ blank_free_ends (name request)
  /\ blank_free_ends (req_extra request).
Proof.
  intros Hm Hfile Hbytes request. subst request. split; [|split; [|split]].
  - unfold inputs_missing in Hm.
    unfold signPdf, sign_inputs_missing, displaySignResult. handler.
    rewrite Hm. steps. rewrite Hfile. steps. rewrite Hbytes. steps.
    fold (request_of w pdfBytes).
    destruct (on_sign_pdf (backend w) (request_of w pdfBytes)) as [e|response];
      steps.
    + exists []. split; [reflexivity|constructor].
    + exists [ScrollIntoView elements.resultSection].
      rewrite <- app_assoc. split; [reflexivity|].
      repeat constructor. discriminate.
  - unfold inputs_missing in Hm. apply orb_false_elim in Hm as [_ Hname].
    cbn. destruct (trim _); [discriminate|discriminate].
  - apply trim_blank_free_ends.
  - apply trim_blank_free_ends.
Qed.

(** X3. When the engine returns a signed document, [signPdf] stores it and
    changes nothing else of the state; the result section is shown with
    the signer name, the timestamp, the extra text (or "(none)" when it is
    empty) and the signature of the answer; the sign button is enabled
    again under its label; the modal is not touched. *)
Theorem signPdf_success_display (w : World) file pdfBytes response :
  inputs_missing w = false ->
  selectedFile (state w) = Some file ->
  file_arrayBuffer file = inr pdfBytes ->
  on_sign_pdf (backend w) (request_of w pdfBytes) = inr response ->
  let w' := run (signPdf inner_text) w in
  let info := signature_info response in
  state w' = set_signedPdfData (Some (signed_pdf response)) (state w)
  /\ content (dom w' !!! elements.resultName) = Text (signer_name info)
  /\ content (dom w' !!! elements.resultTimestamp) = Text (timestamp info)
  /\ content (dom w' !!! elements.resultExtra)
     = Text (if truthy (extra info) then extra info else str "(none)")
  /\ content (dom w' !!! elements.resultSignature) = Text (signature info)
  /\ shown w' elements.resultSection
  /\ disabled (dom w' !!! btnSign) = false
  /\ content (dom w' !!! btnSign) = Text (str "Sign PDF")
  /\ outside [btnSign; elements.resultName; elements.resultTimestamp;
              elements.resultExtra; elements.resultSignature;
              elements.resultSection] w w'.
Proof.
  intros Hm Hfile Hbytes Hok w' info. subst w' info.
  unfold inputs_missing in Hm. unfold shown.
  unfold signPdf, sign_inputs_missing, displaySignResult. handler.
  rewrite Hm. steps. rewrite Hfile. steps. rewrite Hbytes. steps.
  unfold request_of in Hok. rewrite Hok. steps.
  repeat split; steps; try reflexivity.
  - apply removed_class_absent.
  - untouched.
Qed.

(** X4. For an answer that is signed and carries a record, [verifyPdf]
    shows the success panel with the message and the details panel with
    the record, hides the error panel, enables the verify button again
    and leaves the state as it was; the one command it sent is
    [verify_pdf] with the bytes of the selected file. *)
Theorem verifyPdf_positive_answer (w : World) file pdfBytes response info :
  verifySelectedFile (state w) = Some file ->
  file_arrayBuffer file = inr pdfBytes ->
  on_verify_pdf (backend w) pdfBytes = inr response ->
  is_signed response = true ->
  v_signature_info response = Some info ->
  let w' := run (verifyPdf inner_text) w in
  displays_record w' info
  /\ content (dom w' !!! elements.verifyMessage) = Text (message response)
  /\ shown w' elements.verifyResult
  /\ shown w' elements.verifySuccess
  /\ ~ shown w' elements.verifyError
  /\ disabled (dom w' !!! btnVerify) = false
  /\ content (dom w' !!! btnVerify) = Text (str "Verify PDF")
  /\ state w' = state w
  /\ effects w'
     = effects w ++ [Invoked (verify_pdf pdfBytes);
                     ScrollIntoView elements.verifyResult].
Proof.
  intros Hfile Hbytes Hanswer Hsigned Hinfo w'. subst w'.
  unfold displays_record, shown. unfold verifyPdf. handler.
  rewrite Hfile. steps. rewrite Hbytes. steps.
  rewrite Hanswer. steps. rewrite Hsigned, Hinfo. steps.
  repeat split; steps; try reflexivity;
    try apply removed_class_absent.
  - intros Hshown. apply Hshown, added_class_present.
  - rewrite <- app_assoc. reflexivity.
Qed.

(** X5. When reading the selected file fails or the engine refuses,
    [verifyPdf] reports "Failed to verify PDF" with the cause in the
    modal, enables the verify button again under its label, and writes
    nothing else: the panels of an earlier verification stay as they
    were, and so does the state. *)
Theorem verifyPdf_failure_reported (w : World) (e : Err) :
  verify_failure w e ->
  let w' := run (verifyPdf inner_text) w in
  modal_shows_error w' (str "Failed to verify PDF: " ++ e)
  /\ disabled (dom w' !!! btnVerify) = false
  /\ content (dom w' !!! btnVerify) = Text (str "Verify PDF")
  /\ state w' = state w
  /\ outside (btnVerify :: modal_nodes) w w'.
Proof.
  intros Hfail w'. subst w'.
  destruct Hfail as [file e Hfile He|file pdfBytes e Hfile Hbytes He];
    unfold verifyPdf; handler; rewrite Hfile; steps.
  - rewrite He. steps.
    repeat split; steps; try reflexivity;
      [apply removed_class_absent|untouched].
  - rewrite Hbytes. steps. rewrite He. steps.
    repeat split; steps; try reflexivity;
      [apply removed_class_absent|untouched].
Qed.

End FrontEndRuns.

(** ** Keys *)

Lemma hidden_not_shown (w : World) (n : node) (s : gset string) :
  classList (dom w !!! n) = {["hidden"]} ∪ s -> ~ shown w n.
Proof.
  unfold shown. intros -> Hshown. apply Hshown, added_class_present.
Qed.

Lemma unhidden_shown (w : World) (n : node) (s : gset string) :
  classList (dom w !!! n) = s ∖ {["hidden"]} -> shown w n.
Proof. unfold shown. intros ->. apply removed_class_absent. Qed.

(** X6. [updateKeyUI] shows exactly one of the two views of the key
    section: with [true] the key view, where the public key of the state
    is displayed, with [false] the view without a key, which says "No key
    loaded". It writes the seven elements of the section and nothing
    else. *)
Theorem updateKeyUI_shows_one_view (b : bool) (w : World) :
  let w' := run (updateKeyUI b) w in
  (if b then key_view w' else no_key_view w')
  /\ content (dom w' !!! elements.publicKeyContent)
     = Text (if b then currentPublicKey (state w) else str "No key loaded")
  /\ state w' = state w
  /\ effects w' = effects w
  /\ outside [elements.btnGenerateKey; elements.btnImportKey;
              elements.btnExportKey; elements.keySection;
              elements.publicKeyContent; elements.noKeyMessage;
              elements.signForm] w w'.
Proof.
  intros w'. subst w'. unfold key_view, no_key_view.
  destruct b; unfold updateKeyUI, classList_toggle; handler;
    (repeat split;
     try (eapply hidden_not_shown; steps; reflexivity);
     try (eapply unhidden_shown; steps; reflexivity);
     steps; try reflexivity; untouched).
Qed.

(** X7. When the engine returns a public key for a request to generate or
    import, the handler records it: [hasKey] is true, [currentPublicKey]
    is the returned key and the rest of the state is as before; the key
    view is shown with that key; the modal reports the success and is
    set to close after 2000 ms; one command was sent. *)
Theorem key_success_switches_view (r : KeyRequest) (w : World)
    (publicKey : jsstring) :
  key_answer r (backend w) = inr publicKey ->
  let w' := run (key_handler r) w in
  state w' = set_hasKey true (set_currentPublicKey publicKey (state w))
  /\ key_view w'
  /\ content (dom w' !!! elements.publicKeyContent) = Text publicKey
  /\ modal_shows_success w' (key_success_message r)
  /\ effects w' = effects w ++ [Invoked (key_command r);
                                SetTimeoutHideModal modalOverlay 2000].
Proof.
  intros He w'. subst w'. unfold key_view, modal_shows_success.
  destruct r as [|priv pub]; simpl in He;
    unfold key_handler, generateKeypair, importKey, updateKeyUI,
      showTemporarySuccess, classList_toggle; handler;
    rewrite He; steps; cbn [set_hasKey set_currentPublicKey currentPublicKey];
    (repeat split;
     try (eapply hidden_not_shown; steps; reflexivity);
     try (eapply unhidden_shown; steps; reflexivity);
     steps; try reflexivity;
     try apply removed_class_absent;
     try (rewrite <- app_assoc; reflexivity)).
Qed.

(** ** The shell: key status and saving *)

Lemma page_with_page w d : page (with_page w d) = w.
Proof. reflexivity. Qed.
Lemma shell_with_page w d : shell (with_page w d) = shell d.
Proof. reflexivity. Qed.
Lemma journal_with_page w d : journal (with_page w d) = journal d.
Proof. reflexivity. Qed.
Lemma page_with_event e d : page (with_event e d) = page d.
Proof. reflexivity. Qed.
Lemma shell_with_event e d : shell (with_event e d) = shell d.
Proof. reflexivity. Qed.
Lemma journal_with_event e d : journal (with_event e d) = journal d ++ [e].
Proof. reflexivity. Qed.

#[local] Hint Rewrite page_with_page shell_with_page journal_with_page
  page_with_event shell_with_event journal_with_event : world.

Ltac desktop :=
  unfold runD, try_catchD, bindD, retD, liftM, save, writeFile, console_error;
  handler.

(** X8. When the engine answers the two questions of [checkKeyStatus],
    the page agrees with the engine afterwards: [hasKey] is the answer of
    [has_key]; with a key, [currentPublicKey] is the answer of
    [get_public_key] and the key view shows it; without one, the view
    without a key is shown and the public key is not asked for. Nothing
    goes to the console. *)
Theorem checkKeyStatus_agrees_with_engine (d : Desktop) (has : bool)
    (publicKey : jsstring) :
  on_has_key (backend (page d)) = inr has ->
  (has = true -> on_get_public_key (backend (page d)) = inr publicKey) ->
  let d' := runD checkKeyStatus d in
  hasKey (state (page d')) = has
  /\ (if has
      then currentPublicKey (state (page d')) = publicKey
           /\ key_view (page d')
           /\ content (dom (page d') !!! elements.publicKeyContent)
              = Text publicKey
           /\ effects (page d')
              = effects (page d) ++ [Invoked has_key; Invoked get_public_key]
      else currentPublicKey (state (page d')) = currentPublicKey (state (page d))
           /\ no_key_view (page d')
           /\ content (dom (page d') !!! elements.publicKeyContent)
              = Text (str "No key loaded")
           /\ effects (page d') = effects (page d) ++ [Invoked has_key])
  /\ journal d' = journal d.
Proof.
  intros Hhas Hkey d'. subst d'. unfold key_view, no_key_view.
  unfold checkKeyStatus, updateKeyUI, classList_toggle. desktop.
  rewrite Hhas. steps. cbn [set_hasKey hasKey].
  destruct has; steps.
  - rewrite (Hkey eq_refl). steps.
    cbn [set_hasKey set_currentPublicKey currentPublicKey hasKey].
    repeat split;
      try (eapply hidden_not_shown; steps; reflexivity);
      try (eapply unhidden_shown; steps; reflexivity);
      steps; try reflexivity.
    rewrite <- app_assoc. reflexivity.
  - cbn [set_hasKey set_currentPublicKey currentPublicKey hasKey].
    repeat split;
      try (eapply hidden_not_shown; steps; reflexivity);
      try (eapply unhidden_shown; steps; reflexivity);
      steps; reflexivity.
Qed.

(** X9. When a question of [checkKeyStatus] is refused, the refusal goes
    to the console and no element of the page is written. If it was
    [has_key] that was refused, the state is as before. If [has_key]
    answered yes and [get_public_key] was refused, [hasKey] is true all
    the same, while [currentPublicKey] and the view are those of
    before. *)
Theorem checkKeyStatus_refused (d : Desktop) (e : Err) :
  on_has_key (backend (page d)) = inl e
  \/ (on_has_key (backend (page d)) = inr true
      /\ on_get_public_key (backend (page d)) = inl e) ->
  let d' := runD checkKeyStatus d in
  journal d'
  = journal d ++ [ConsoleError (str "Failed to check key status:") e]
  /\ dom (page d') = dom (page d)
  /\ currentPublicKey (state (page d')) = currentPublicKey (state (page d))
  /\ hasKey (state (page d'))
     = match on_has_key (backend (page d)) with
       | inr has => has
       | inl _ => hasKey (state (page d))
       end.
Proof.
  intros Hrefused d'. subst d'.
  unfold checkKeyStatus, updateKeyUI, classList_toggle. desktop.
  destruct Hrefused as [Hhas|[Hhas Hkey]]; rewrite Hhas; steps.
  - repeat split; reflexivity.
  - cbn [set_hasKey hasKey]. steps. rewrite Hkey. steps.
    repeat split; reflexivity.
Qed.

Lemma is_pdf_suffix_length (ext : jsstring) :
  is_pdf_suffix ext = true -> length ext = 4%nat.
Proof.
  destruct ext as [|a [|b [|c [|d [|x ext]]]]]; simpl; try discriminate.
  reflexivity.
Qed.

(** X10. The name proposed for the signed file: a name that ends in
    ".pdf", in any case of the three letters, has these four characters
    replaced by "_SIGNED.pdf" and so never is the name of the source;
    any other name is proposed unchanged. *)
Theorem replace_pdf_suffix_cases (name : jsstring) :
  (forall stem ext,
     name = stem ++ ext -> is_pdf_suffix ext = true ->
     replace_pdf_suffix name = stem ++ str "_SIGNED.pdf"
     /\ replace_pdf_suffix name <> name)
  /\ (replace_pdf_suffix name = name
      <-> ~ exists stem ext, name = stem ++ ext /\ is_pdf_suffix ext = true).
Proof.
  assert (Hmatch : forall stem ext,
             name = stem ++ ext -> is_pdf_suffix ext = true ->
             replace_pdf_suffix name = stem ++ str "_SIGNED.pdf"
             /\ replace_pdf_suffix name <> name).
  { intros stem ext -> Hext. pose proof (is_pdf_suffix_length ext Hext) as Hlen.
    assert (Hrepl : replace_pdf_suffix (stem ++ ext)
                    = stem ++ str "_SIGNED.pdf").
    { unfold replace_pdf_suffix. rewrite length_app, Hlen.
      replace (length stem + 4 - 4)%nat with (length stem) by lia.
      rewrite drop_app_length, Hext, take_app_length. reflexivity. }
    split; [exact Hrepl|]. rewrite Hrepl. intros Heq.
    apply (f_equal length) in Heq. rewrite !length_app, Hlen in Heq.
    simpl in Heq. lia. }
  split; [exact Hmatch|]. split.
  - intros Hsame (stem & ext & Hname & Hext).
    destruct (Hmatch stem ext Hname Hext) as [_ Hne]. contradiction.
  - intros Hnone. unfold replace_pdf_suffix.
    destruct (is_pdf_suffix (drop (length name - 4) name)) eqn:Hext;
      [|reflexivity].
    exfalso. apply Hnone.
    exists (take (length name - 4) name), (drop (length name - 4) name).
    split; [symmetry; apply take_drop|exact Hext].
Qed.

Lemma replace_pdf_suffix_cases_witness :
  replace_pdf_suffix (str "Letter.PDF") = str "Letter_SIGNED.pdf"
  /\ replace_pdf_suffix (str "letter.pdf.bak") = str "letter.pdf.bak".
Proof.
  split.
  - exact (proj1 (proj1 (replace_pdf_suffix_cases (str "Letter.PDF"))
                    (str "Letter") (str ".PDF") eq_refl eq_refl)).
  - reflexivity.
Defined.

(** X11. Without a stored signed document [downloadSignedPdf] does
    nothing, not even open the dialog. With one, it opens the save
    dialog with the proposed name and a PDF filter; when the dialog is
    dismissed, or returns an empty path, nothing is written and the page
    is as it was. *)
Theorem downloadSignedPdf_without_path (d : Desktop) :
  match signedPdfData (state (page d)) with
  | None => True
  | Some _ =>
      on_save (shell d) (download_name (state (page d))) = inr None
      \/ on_save (shell d) (download_name (state (page d))) = inr (Some [])
  end ->
  let d' := runD downloadSignedPdf d in
  page d' = page d
  /\ journal d'
     = journal d ++ match signedPdfData (state (page d)) with
                    | None => []
                    | Some _ => [download_dialog (state (page d))]
                    end.
Proof.
  intros Hpath d'. subst d'. unfold downloadSignedPdf. desktop.
  destruct (signedPdfData (state (page d))) as [data|]; steps.
  - fold (download_name (state (page d))).
    destruct Hpath as [-> | ->]; steps; split; reflexivity.
  - rewrite app_nil_r. split; reflexivity.
Qed.

(** X12. With a stored signed document, a path chosen in the dialog and a
    write that succeeds, [downloadSignedPdf] writes the stored bytes,
    once, to the chosen path, then reports the success in the modal,
    which is set to close after 2000 ms. The state is as before. *)
Theorem downloadSignedPdf_writes_stored_bytes (d : Desktop) data path :
  signedPdfData (state (page d)) = Some data ->
  on_save (shell d) (download_name (state (page d))) = inr (Some path) ->
  truthy path = true ->
  on_writeFile (shell d) path data = inr tt ->
  let d' := runD downloadSignedPdf d in
  journal d'
  = journal d ++ [download_dialog (state (page d)); WriteFile path data]
  /\ modal_shows_success (page d') (str "PDF saved successfully!")
  /\ state (page d') = state (page d)
  /\ effects (page d')
     = effects (page d) ++ [SetTimeoutHideModal modalOverlay 2000]
  /\ outside modal_nodes (page d) (page d').
Proof.
  intros Hdata Hsave Hpath Hwrite d'. subst d'.
  unfold modal_shows_success, downloadSignedPdf, showTemporarySuccess.
  desktop. rewrite Hdata. steps.
  fold (download_name (state (page d))). rewrite Hsave. steps.
  rewrite Hpath. steps. rewrite Hdata. cbn [default from_option id]. steps. rewrite Hwrite. steps.
  repeat split; steps; try reflexivity.
  - rewrite <- app_assoc. reflexivity.
  - apply removed_class_absent.
  - untouched.
Qed.

(** X13. When the dialog fails, or the write to the chosen path fails,
    [downloadSignedPdf] reports "Failed to save PDF" with the cause in
    the modal; the state, and with it the stored signed document, is as
    before, and nothing else was asked of the shell than the dialog and,
    in the second case, the one write. *)
Theorem downloadSignedPdf_failure_reported (d : Desktop) data e events :
  signedPdfData (state (page d)) = Some data ->
  save_failure d data e events ->
  let d' := runD downloadSignedPdf d in
  journal d' = journal d ++ events
  /\ modal_shows_error (page d') (str "Failed to save PDF: " ++ e)
  /\ state (page d') = state (page d)
  /\ effects (page d') = effects (page d)
  /\ outside modal_nodes (page d) (page d').
Proof.
  intros Hdata Hfail d'. subst d'.
  unfold modal_shows_error, downloadSignedPdf, showTemporarySuccess.
  desktop. rewrite Hdata. steps.
  fold (download_name (state (page d))).
  destruct Hfail as [e Hsave|path e Hsave Hpath Hwrite]; rewrite Hsave; steps.
  - repeat split; steps; try reflexivity;
      [apply removed_class_absent|untouched].
  - rewrite Hpath. steps. rewrite Hdata. cbn [default from_option id]. steps. rewrite Hwrite. steps.
    repeat split; steps; try reflexivity.
    + rewrite <- app_assoc. reflexivity.
    + apply removed_class_absent.
    + untouched.
Qed.

(** ** The layout of the page and the content of a drop zone *)

Lemma first_with_class_sound (fuel : nat) (d : gmap node Element)
    (todo : list node) (c : string) (n : node) :
  first_with_class fuel d todo c = Some n -> c ∈ classList (d !!! n).
Proof.
  revert todo. induction fuel as [|fuel IH]; intros todo; simpl;
    [discriminate|].
  destruct todo as [|m rest]; [discriminate|].
  case_decide as Hm; [intros [= <-]; exact Hm|apply IH].
Qed.

Lemma first_with_class_ext (fuel : nat) (d d' : gmap node Element)
    (todo : list node) (c : string) :
  (forall n, children (d' !!! n) = children (d !!! n)) ->
  (forall n, c ∈ classList (d' !!! n) <-> c ∈ classList (d !!! n)) ->
  first_with_class fuel d' todo c = first_with_class fuel d todo c.
Proof.
  intros Hchildren Hclass. revert todo.
  induction fuel as [|fuel IH]; intros todo; simpl; [reflexivity|].
  destruct todo as [|m rest]; [reflexivity|].
  rewrite Hchildren. specialize (Hclass m).
  repeat case_decide; try reflexivity; try tauto. apply IH.
Qed.

Lemma first_with_class_fuel (fuel fuel' : nat) (d : gmap node Element)
    (todo : list node) (c : string) (n : node) :
  first_with_class fuel d todo c = Some n -> (fuel <= fuel')%nat ->
  first_with_class fuel' d todo c = Some n.
Proof.
  revert fuel' todo. induction fuel as [|fuel IH]; intros fuel' todo; simpl;
    [discriminate|].
  destruct todo as [|m rest]; [discriminate|].
  intros Hfound Hle. destruct fuel' as [|fuel']; [lia|]. simpl.
  case_decide; [exact Hfound|]. apply IH; [exact Hfound|lia].
Qed.

Lemma same_layout_refl (w : World) : same_layout w w.
Proof. split; [|split]; [reflexivity|reflexivity|lia]. Qed.

Lemma same_layout_write (w w' : World) (n : node) (f : Element -> Element) :
  same_layout w w' -> gentle f -> same_layout w (write_elem n f w').
Proof.
  intros (Hchildren & Hclass & Hsize) Hf. split; [|split].
  - intros m. destruct (decide (n = m)) as [->|Hne].
    + rewrite elem_write_elem_eq. rewrite (proj1 (Hf _)). apply Hchildren.
    + rewrite elem_write_elem_ne by assumption. apply Hchildren.
  - intros m. destruct (decide (n = m)) as [->|Hne].
    + rewrite elem_write_elem_eq. rewrite (proj2 (Hf _)). apply Hclass.
    + rewrite elem_write_elem_ne by assumption. apply Hclass.
  - unfold write_elem. cbn [dom with_dom]. rewrite map_size_insert.
    destruct (dom w' !! n); simpl; lia.
Qed.

Lemma same_layout_effect (w w' : World) (e : Effect) :
  same_layout w w' -> same_layout w (with_effect e w').
Proof. intros H. exact H. Qed.

Lemma same_layout_state (w w' : World) (s : State) :
  same_layout w w' -> same_layout w (with_state s w').
Proof. intros H. exact H. Qed.

Lemma gentle_set_content c : gentle (set_content c).
Proof. intros e. split; reflexivity. Qed.

Lemma gentle_set_disabled b : gentle (set_disabled b).
Proof. intros e. split; reflexivity. Qed.

Lemma gentle_set_value v : gentle (set_value v).
Proof. intros e. split; reflexivity. Qed.

Lemma gentle_clear_input : gentle clear_input.
Proof. intros e. unfold clear_input. destruct (files e); split; reflexivity. Qed.

Lemma gentle_add_class (c : string) :
  c <> "drop-zone-content"%string ->
  gentle (fun e => set_classList ({[c]} ∪ classList e) e).
Proof.
  intros Hc e. split; [reflexivity|]. simpl.
  rewrite elem_of_union, elem_of_singleton. split; [|tauto].
  intros [Heq|Hin]; [congruence|exact Hin].
Qed.

Lemma gentle_remove_class (c : string) :
  c <> "drop-zone-content"%string ->
  gentle (fun e => set_classList (classList e ∖ {[c]}) e).
Proof.
  intros Hc e. split; [reflexivity|]. simpl.
  rewrite elem_of_difference, elem_of_singleton. split; [tauto|].
  intros Hin. split; [exact Hin|congruence].
Qed.

(** The world [w'] was reached from [w] by writes that keep the layout. *)
Ltac layout :=
  repeat match goal with
  | |- same_layout _ (with_effect _ _) => apply same_layout_effect
  | |- same_layout _ (with_state _ _) => apply same_layout_state
  | |- same_layout _ (write_elem _ _ _) =>
      apply same_layout_write;
      [| first [ apply gentle_set_content | apply gentle_set_disabled
               | apply gentle_set_value | apply gentle_clear_input
               | apply gentle_add_class; discriminate
               | apply gentle_remove_class; discriminate ] ]
  end;
  apply same_layout_refl.

(** The content that a drop zone had is the one found after writes that
    keep the layout. *)
Lemma zone_content_stable (w w' : World) (zone c : node) :
  same_layout w w' -> zone_content w zone = Some c ->
  zone_content w' zone = Some c.
Proof.
  intros (Hchildren & Hclass & Hsize) Hfound. unfold zone_content in *.
  rewrite Hchildren.
  rewrite (first_with_class_ext _ (dom w) (dom w')) by assumption.
  eapply first_with_class_fuel; eassumption.
Qed.

(** What is found as the content of a zone is none of the elements
    fetched by id, on a page where those are apart from the contents. *)
Lemma zone_content_apart (w w' : World) (zone c n : node) :
  content_apart w -> same_layout w w' ->
  zone_content w' zone = Some c -> n ∈ page_nodes -> c <> n.
Proof.
  intros Hapart (_ & Hclass & _) Hfound Hn ->.
  apply first_with_class_sound in Hfound. apply Hclass in Hfound.
  unfold content_apart in Hapart. rewrite Forall_forall in Hapart.
  exact (Hapart n Hn Hfound).
Qed.

Lemma set_value_of_empty (n : node) (w : World) :
  set_value_of n [] w = (write_elem n clear_input w, inr tt).
Proof.
  unfold set_value_of, bind, get_elem, modify_elem, write_elem, clear_input.
  destruct (files (dom w !!! n)); reflexivity.
Qed.

Lemma querySelector_class_zone (zone : node) (w : World) :
  querySelector_class zone "drop-zone-content" w = (w, inr (zone_content w zone)).
Proof. reflexivity. Qed.

(** One of the elements fetched by id. *)
Ltac named := apply (bool_decide_unpack _); vm_compute; exact I.

(** What a drop zone's content is not, from what it was found apart
    from. *)
Ltac apart :=
  match goal with
  | H : forall n, n ∈ _ -> ?c <> n |- ?c <> _ => apply H; named
  end.

#[local] Hint Rewrite elem_write_elem_ne using apart : world.

Lemma no_file_missing (w : World) :
  selectedFile (state w) = None -> inputs_missing w = true.
Proof. unfold inputs_missing. intros ->. reflexivity. Qed.

(** X14. Opening the sign tab empties the sign form: no file is
    selected, the name and the extra text are empty, the file info and
    an earlier result are hidden, the sign button is disabled, and
    [signPdf] would stop at its guard. The sign section is shown and the
    verify section hidden; the key section is shown exactly when the page
    has a key. The key fields, the stored signed document and the
    selection of the verify tab are as before, and nothing is sent to
    the engine. *)
Theorem switchTab_sign_clears_form (w : World) :
  content_apart w ->
  let w' := run (switchTab (str "sign-section")) w in
  state w'
  = set_selectedFile None (set_currentTab (str "sign-section") (state w))
  /\ effects w' = effects w
  /\ value (dom w' !!! elements.signerNameInput) = []
  /\ value (dom w' !!! elements.extraTextInput) = []
  /\ disabled (dom w' !!! btnSign) = true
  /\ inputs_missing w' = true
  /\ ~ shown w' elements.fileInfo
  /\ ~ shown w' elements.resultSection
  /\ shown w' elements.signSection
  /\ ~ shown w' elements.verifySection
  /\ (shown w' elements.keySection <-> hasKey (state w) = true)
  /\ ("active" ∈ classList (dom w' !!! elements.tabSign))
  /\ ("active" ∉ classList (dom w' !!! elements.tabVerify)).
Proof.
  intros Hapart w'. subst w'.
  unfold switchTab, clearSignForm, classList_toggle, when_elem.
  rewrite (bool_decide_eq_true_2 _ eq_refl). handler.
  cbn [set_currentTab hasKey].
  destruct (hasKey (state w)) eqn:Hkey; cbn [orb negb]; steps.
  all: rewrite set_value_of_empty; steps.
  all: rewrite set_value_of_empty; steps.
  all: rewrite set_value_of_empty; steps.
  all: rewrite querySelector_class_zone; steps.
  all: match goal with |- context [zone_content ?W ?z] =>
    destruct (zone_content W z) as [c|] eqn:Hfound;
    [assert (Hc : forall n, n ∈ page_nodes -> c <> n)
       by (intros n Hn; eapply (zone_content_apart w W); [exact Hapart|layout|exact Hfound|exact Hn])|]
  end; steps.
  all: cbn [set_selectedFile set_currentTab selectedFile].
  all: split; [reflexivity|]; split; [reflexivity|].
  all: split; [steps; unfold clear_input; destruct (files _); reflexivity|].
  all: split; [steps; unfold clear_input; destruct (files _); reflexivity|].
  all: split; [steps; reflexivity|].
  all: split; [apply no_file_missing; steps; reflexivity|].
  all: split; [eapply hidden_not_shown; steps; reflexivity|].
  all: split; [eapply hidden_not_shown; steps; reflexivity|].
  all: split; [eapply unhidden_shown; steps; reflexivity|].
  all: split; [eapply hidden_not_shown; steps; reflexivity|].
  all: split; [|split; [steps; apply added_class_present|]].
  all: try (steps; apply removed_class_absent).
  all: split;
    [intros Hshown;
     first [reflexivity
           |exfalso; eapply hidden_not_shown; [|exact Hshown];
            steps; reflexivity]
    |intros Htrue;
     first [discriminate|eapply unhidden_shown; steps; reflexivity]].
Qed.

Lemma content_apart_laid_out (n : jsstring) : content_apart (laid_out n).
Proof.
  unfold content_apart, page_nodes.
  repeat (apply Forall_cons; split;
          [apply (bool_decide_unpack _); vm_compute; exact I|]).
  apply Forall_nil_2.
Qed.

Lemma switchTab_sign_clears_form_witness :
  let w' := run (switchTab (str "sign-section")) (laid_out (str "Ann")) in
  value (dom w' !!! elements.signerNameInput) = []
  /\ disabled (dom w' !!! btnSign) = true.
Proof.
  intros w'.
  destruct (switchTab_sign_clears_form (laid_out (str "Ann"))
              (content_apart_laid_out _))
    as (_ & _ & Hname & _ & Hdisabled & _).
  split; [exact Hname|exact Hdisabled].
Defined.

(** X15. A tab id other than "sign-section" opens the verify tab and
    empties its form: no file is selected for verification, the verify
    button is disabled, the file info and the panels of an earlier
    verification are hidden, and so is an earlier sign result. The verify
    section is shown, the sign section and the key section are hidden.
    The selection of the sign tab, the key fields and the stored signed
    document are as before, and nothing is sent to the engine. *)
Theorem switchTab_other_opens_verify (tabId : jsstring) (w : World) :
  tabId <> str "sign-section" ->
  content_apart w ->
  let w' := run (switchTab tabId) w in
  state w' = set_verifySelectedFile None (set_currentTab tabId (state w))
  /\ effects w' = effects w
  /\ disabled (dom w' !!! btnVerify) = true
  /\ ~ shown w' elements.verifyFileInfo
  /\ ~ shown w' elements.verifyResult
  /\ ~ shown w' elements.verifySuccess
  /\ ~ shown w' elements.verifyError
  /\ ~ shown w' elements.verifyDetails
  /\ ~ shown w' elements.resultSection
  /\ ~ shown w' elements.signSection
  /\ shown w' elements.verifySection
  /\ ~ shown w' elements.keySection
  /\ ("active" ∉ classList (dom w' !!! elements.tabSign))
  /\ ("active" ∈ classList (dom w' !!! elements.tabVerify)).
Proof.
  intros Htab Hapart w'. subst w'.
  unfold switchTab, clearVerifyForm, classList_toggle, when_elem.
  rewrite (bool_decide_eq_false_2 _ Htab). handler.
  cbn [set_currentTab hasKey orb].
  rewrite set_value_of_empty. steps.
  rewrite querySelector_class_zone. steps.
  match goal with |- context [zone_content ?W ?z] =>
    destruct (zone_content W z) as [c|] eqn:Hfound;
    [assert (Hc : forall n, n ∈ page_nodes -> c <> n)
       by (intros n Hn; eapply (zone_content_apart w W);
           [exact Hapart|layout|exact Hfound|exact Hn])|]
  end; steps.
  all: cbn [set_verifySelectedFile set_currentTab].
  all: split; [reflexivity|]; split; [reflexivity|].
  all: split; [steps; reflexivity|].
  all: do 7 (split; [eapply hidden_not_shown; steps; reflexivity|]).
  all: split; [eapply unhidden_shown; steps; reflexivity|].
  all: split; [eapply hidden_not_shown; steps; reflexivity|].
  all: split; [steps; apply removed_class_absent
              |steps; apply added_class_present].
Qed.

Lemma switchTab_other_opens_verify_witness :
  let w' := run (switchTab (str "verify-section")) (laid_out (str "Ann")) in
  disabled (dom w' !!! btnVerify) = true
  /\ currentTab (state w') = str "verify-section".
Proof.
  intros w'.
  destruct (switchTab_other_opens_verify (str "verify-section")
              (laid_out (str "Ann")) ltac:(discriminate)
              (content_apart_laid_out _))
    as (Hstate & _ & Hdisabled & _).
  subst w'. split; [exact Hdisabled|]. rewrite Hstate. reflexivity.
Defined.

(** X16. Dropping files on the sign drop zone, the first of which is a
    PDF: that file becomes the selected one and nothing else of the state
    changes; its name and its size, as [formatFileSize] renders it, are
    written to the file info, which is shown; the highlight of the zone
    is cleared; the sign button is enabled exactly when the signer name
    is not blank; and the content of the zone that holds the file info,
    if it has one, is hidden. Nothing is sent to the engine. *)
Theorem signDropZone_drop_selects_pdf (w : World) (file : File)
    (rest : list File) :
  includes (file_type file) (str "pdf") = true ->
  content_apart w ->
  let w' := run (signDropZone_drop (Some (file :: rest))) w in
  state w' = set_selectedFile (Some file) (state w)
  /\ effects w' = effects w ++ [PreventDefault]
  /\ content (dom w' !!! elements.fileName) = Text (file_name file)
  /\ content (dom w' !!! elements.fileSize)
     = Text (formatFileSize (file_size file))
  /\ shown w' elements.fileInfo
  /\ ("drag-over" ∉ classList (dom w' !!! elements.dropZone))
  /\ (disabled (dom w' !!! btnSign) = false
      <-> forallb is_white_space
            (value (dom w !!! elements.signerNameInput)) = false)
  /\ (forall zone c,
        parentElement (dom w !!! elements.fileInfo) = Some zone ->
        zone_content w zone = Some c -> ~ shown w' c).
Proof.
  intros Htype Hapart w'. subst w'.
  unfold signDropZone_drop, setupDropZone_drop, handleFileSelect,
    onSignFileSelect, updateSignButton, sign_inputs_missing,
    toggleDropZoneContent, when_elem, classList_toggle.
  rewrite Htype. handler. cbn [set_selectedFile selectedFile].
  rewrite (bool_decide_eq_true_2 (is_Some (Some file))) by eauto.
  cbn [negb orb]. steps.
  destruct (parentElement (dom w !!! elements.fileInfo)) as [zone|] eqn:Hzone;
    steps.
  - rewrite querySelector_class_zone. steps.
    match goal with |- context [zone_content ?W ?z] =>
      assert (Hlayout : same_layout w W) by layout;
      destruct (zone_content W z) as [c|] eqn:Hfound;
      [assert (Hc : forall n, n ∈ page_nodes -> c <> n)
         by (intros n Hn; eapply (zone_content_apart w W);
             [exact Hapart|exact Hlayout|exact Hfound|exact Hn])|]
    end; steps.
    all: split; [reflexivity|]; split; [reflexivity|].
    all: split; [steps; reflexivity|]; split; [steps; reflexivity|].
    all: split; [eapply unhidden_shown; steps; reflexivity|].
    all: split; [steps; apply removed_class_absent|].
    all: split; [steps; rewrite negb_false_iff; apply truthy_trim|].
    all: intros zone' c0 [= <-] Hc0.
    all: rewrite (zone_content_stable _ _ _ _ Hlayout Hc0) in Hfound.
    + injection Hfound as <-.
      eapply hidden_not_shown. steps. reflexivity.
    + discriminate.
  - split; [reflexivity|]; split; [reflexivity|].
    split; [steps; reflexivity|]; split; [steps; reflexivity|].
    split; [eapply unhidden_shown; steps; reflexivity|].
    split; [steps; apply removed_class_absent|].
    split; [steps; rewrite negb_false_iff; apply truthy_trim|].
    intros zone c [=].
Qed.

Lemma signDropZone_drop_selects_pdf_witness :
  let w' := run (signDropZone_drop (Some [pdf; png])) (laid_out (str "Ann")) in
  selectedFile (state w') = Some pdf
  /\ content (dom w' !!! elements.fileSize) = Text (str "4 B")
  /\ ~ shown w' "zone-content".
Proof.
  intros w'.
  destruct (signDropZone_drop_selects_pdf (laid_out (str "Ann")) pdf [png]
              eq_refl (content_apart_laid_out _))
    as (Hstate & _ & _ & Hsize & _ & _ & _ & Hcontent).
  subst w'. split; [rewrite Hstate; reflexivity|]. split; [exact Hsize|].
  apply (Hcontent elements.dropZone); vm_compute; reflexivity.
Defined.

(** X17. The Import button of the import modal. When one of the two key
    fields is empty or holds white space only, nothing is sent to the
    engine, the state is as before and the modal asks for both keys.
    Otherwise the handler is [importKey] on the two keys without the
    white space at their ends, and the command that goes to the engine
    carries these. *)
Theorem import_click_requires_both_keys (w : World) :
  let privateKey := value (dom w !!! getElement "import-private-key") in
  let publicKey := value (dom w !!! getElement "import-public-key") in
  let w' := run initKeyButtons_import_click w in
  (forallb is_white_space privateKey || forallb is_white_space publicKey
   = true ->
   effects w' = effects w
   /\ state w' = state w
   /\ modal_shows_error w'
        (str "Please provide both private and public keys.")
   /\ outside modal_nodes w w')
  /\ (forallb is_white_space privateKey || forallb is_white_space publicKey
      = false ->
      w' = run (importKey (trim privateKey) (trim publicKey)) w
      /\ blank_free_ends (trim privateKey)
      /\ blank_free_ends (trim publicKey)
      /\ exists rest,
           effects w'
           = effects w
             ++ Invoked (import_key (trim privateKey) (trim publicKey))
                :: rest).
Proof.
  intros privateKey publicKey w'. subst w'.
  unfold initKeyButtons_import_click. split.
  - intros Hblank. handler. fold privateKey publicKey.
    assert (Hguard : negb (truthy (trim privateKey))
                     || negb (truthy (trim publicKey)) = true).
    { apply orb_true_iff in Hblank as [Hb|Hb];
        rewrite (trim_blank _ Hb); [reflexivity|apply orb_true_r]. }
    rewrite Hguard. steps.
    split; [reflexivity|]. split; [reflexivity|]. split.
    + repeat split; steps; try reflexivity. apply removed_class_absent.
    + untouched.
  - intros Hkeys. apply orb_false_iff in Hkeys as [Hpriv Hpub].
    apply truthy_trim in Hpriv, Hpub.
    assert (Hrun : run (let* privateInput :=
                          get_elem (getElement "import-private-key") in
                        let* publicInput :=
                          get_elem (getElement "import-public-key") in
                        if negb (truthy (trim (value privateInput)))
                           || negb (truthy (trim (value publicInput)))
                        then showError modalOverlay modalTitle modalContent
                               (str "Please provide both private and public keys.")
                        else importKey (trim (value privateInput))
                               (trim (value publicInput))) w
                   = run (importKey (trim privateKey) (trim publicKey)) w).
    { unfold run, bind, get_elem. cbn [fst snd].
      fold privateKey publicKey. rewrite Hpriv, Hpub. reflexivity. }
    rewrite Hrun. split; [reflexivity|].
    split; [apply trim_blank_free_ends|]. split; [apply trim_blank_free_ends|].
    unfold importKey, updateKeyUI, showTemporarySuccess, classList_toggle.
    handler.
    destruct (on_import_key (backend w) (trim privateKey) (trim publicKey));
      steps; eexists; rewrite <- ?app_assoc; reflexivity.
Qed.

Lemma import_click_requires_both_keys_witness :
  effects (run initKeyButtons_import_click (importing (str " ") (str "pub")))
  = []
  /\ exists rest,
       effects (run initKeyButtons_import_click
                  (importing (str " priv ") (str "pub ")))
       = Invoked (import_key (str "priv") (str "pub")) :: rest.
Proof.
  split.
  - exact (proj1 (proj1 (import_click_requires_both_keys
                           (importing (str " ") (str "pub"))) eq_refl)).
  - destruct (proj2 (import_click_requires_both_keys
                       (importing (str " priv ") (str "pub "))) eq_refl)
      as (_ & _ & _ & rest & Hrest).
    exists rest. exact Hrest.
Defined.

(** X18. A PDF picked with the file input of the verify tab becomes the
    file to verify, and nothing else of the state changes; the verify
    button is enabled; the name and the size of the file are written to
    the file info, which is shown; the content of the zone that holds
    the file info, if it has one, is hidden. Nothing is sent to the
    engine. Of several files only the first is taken. *)
Theorem verifyFileInput_change_selects_pdf (w : World) (file : File)
    (rest : list File) :
  files (dom w !!! elements.verifyFileInput) = Some (file :: rest) ->
  includes (file_type file) (str "pdf") = true ->
  content_apart w ->
  let w' := run verifyFileInput_change w in
  state w' = set_verifySelectedFile (Some file) (state w)
  /\ effects w' = effects w
  /\ disabled (dom w' !!! btnVerify) = false
  /\ content (dom w' !!! elements.verifyFileName) = Text (file_name file)
  /\ content (dom w' !!! elements.verifyFileSize)
     = Text (formatFileSize (file_size file))
  /\ shown w' elements.verifyFileInfo
  /\ (forall zone c,
        parentElement (dom w !!! elements.verifyFileInfo) = Some zone ->
        zone_content w zone = Some c -> ~ shown w' c).
Proof.
  intros Hfiles Htype Hapart w'. subst w'.
  unfold verifyFileInput_change, setupDropZone_change, handleFileSelect,
    onVerifyFileSelect, updateVerifyButton, toggleDropZoneContent, when_elem,
    classList_toggle.
  handler. rewrite Hfiles, Htype. steps.
  cbn [set_verifySelectedFile verifySelectedFile].
  rewrite (bool_decide_eq_true_2 (is_Some (Some file))) by eauto.
  steps.
  destruct (parentElement (dom w !!! elements.verifyFileInfo))
    as [zone|] eqn:Hzone; steps.
  - rewrite querySelector_class_zone. steps.
    match goal with |- context [zone_content ?W ?z] =>
      assert (Hlayout : same_layout w W) by layout;
      destruct (zone_content W z) as [c|] eqn:Hfound;
      [assert (Hc : forall n, n ∈ page_nodes -> c <> n)
         by (intros n Hn; eapply (zone_content_apart w W);
             [exact Hapart|exact Hlayout|exact Hfound|exact Hn])|]
    end; steps.
    all: split; [reflexivity|]; split; [reflexivity|].
    all: split; [steps; reflexivity|].
    all: split; [steps; reflexivity|]; split; [steps; reflexivity|].
    all: split; [eapply unhidden_shown; steps; reflexivity|].
    all: intros zone' c0 [= <-] Hc0.
    all: rewrite (zone_content_stable _ _ _ _ Hlayout Hc0) in Hfound.
    + injection Hfound as <-.
      eapply hidden_not_shown. steps. reflexivity.
    + discriminate.
  - split; [reflexivity|]; split; [reflexivity|].
    split; [steps; reflexivity|].
    split; [steps; reflexivity|]; split; [steps; reflexivity|].
    split; [eapply unhidden_shown; steps; reflexivity|].
    intros zone c [=].
Qed.

Lemma content_apart_picked (file : File) : content_apart (picked file).
Proof.
  unfold content_apart, page_nodes.
  repeat (apply Forall_cons; split;
          [apply (bool_decide_unpack _); vm_compute; exact I|]).
  apply Forall_nil_2.
Qed.

Lemma verifyFileInput_change_selects_pdf_witness :
  let w' := run verifyFileInput_change (picked pdf) in
  verifySelectedFile (state w') = Some pdf
  /\ disabled (dom w' !!! btnVerify) = false.
Proof.
  intros w'.
  destruct (verifyFileInput_change_selects_pdf (picked pdf) pdf [] eq_refl
              eq_refl (content_apart_picked _))
    as (Hstate & _ & Hdisabled & _).
  subst w'. split; [rewrite Hstate; reflexivity|exact Hdisabled].
Defined.

(** X19. At the top of the KB range the rounding to one decimal reaches
    the next unit: each of the last 51 byte counts below 1 MiB is
    rendered as "1024.0 KB", not as a count of MB. *)
Theorem formatFileSize_top_of_KB (b : Z) :
  1048525 <= b < 1048576 -> formatFileSize b = str "1024.0 KB".
Proof.
  intros Hb. rewrite formatFileSize_KB by lia. unfold one_decimal.
  replace ((20 * b + 1024) / (2 * 1024)) with 10240
    by (apply (Z.div_unique _ _ _ (20 * b + 1024 - 20971520)); lia).
  reflexivity.
Qed.

Lemma formatFileSize_top_of_KB_witness :
  formatFileSize 1048575 = str "1024.0 KB".
Proof. exact (formatFileSize_top_of_KB 1048575 ltac:(lia)). Defined.

(** X20. A click on the modal overlay closes the modal only when the
    overlay itself was hit: then the overlay is hidden and nothing else
    is written, so that the title and the text of the modal stay; a
    click that lands on an element inside the overlay changes
    nothing. *)
Theorem modalOverlay_click_closes_on_backdrop (target : node) (w : World) :
  let w' := run (modalOverlay_click target) w in
  (target = modalOverlay ->
   ~ shown w' modalOverlay
   /\ state w' = state w
   /\ effects w' = effects w
   /\ outside [modalOverlay] w w')
  /\ (target <> modalOverlay -> w' = w).
Proof.
  intros w'. subst w'. unfold modalOverlay_click.
  destruct (decide (target = modalOverlay)) as [Heq|Hne]; split;
    try (intros; congruence); try reflexivity.
  intros _. handler.
  split; [eapply hidden_not_shown; steps; reflexivity|].
  split; [reflexivity|]. split; [reflexivity|]. untouched.
Qed.

Lemma modalOverlay_click_closes_on_backdrop_witness :
  ~ shown (run (modalOverlay_click modalOverlay) blank) modalOverlay
  /\ run (modalOverlay_click modalContent) blank = blank.
Proof.
  split.
  - exact (proj1 (proj1 (modalOverlay_click_closes_on_backdrop
                           modalOverlay blank) eq_refl)).
  - exact (proj2 (modalOverlay_click_closes_on_backdrop modalContent blank)
             ltac:(discriminate)).
Defined.

(** ** The further properties at work on concrete pages *)

Lemma signPdf_sends_trimmed_name_witness :
  let w := signing pdf (str " Ann ") in
  name (request_of w Reference.plain) = str "Ann"
  /\ blank_free_ends (name (request_of w Reference.plain)).
Proof.
  intros w.
  destruct (signPdf_sends_trimmed_name (fun s => s) w pdf Reference.plain
              eq_refl eq_refl eq_refl) as (_ & _ & Hends & _).
  split; [reflexivity|exact Hends].
Defined.

Lemma signPdf_success_display_witness :
  let w := with_backend serving (signing pdf (str "Ann")) in
  let w' := run (signPdf (fun s => s)) w in
  signedPdfData (state w') = Some (signed_pdf ann_response)
  /\ content (dom w' !!! elements.resultExtra) = Text (str "(none)").
Proof.
  intros w w'.
  destruct (signPdf_success_display (fun s => s) w pdf Reference.plain
              ann_response eq_refl eq_refl eq_refl eq_refl)
    as (Hstate & _ & _ & Hextra & _).
  subst w'. split; [rewrite Hstate; reflexivity|exact Hextra].
Defined.

Lemma verifyPdf_positive_answer_witness :
  let w := verifying signed_pdf_file valid_answer in
  let w' := run (verifyPdf (fun s => s)) w in
  displays_record w' ann_info /\ state w' = state w.
Proof.
  intros w w'.
  destruct (verifyPdf_positive_answer (fun s => s) w signed_pdf_file
              (Engine.signedPdfBytes Reference.ann_signed) valid_answer
              ann_info eq_refl eq_refl eq_refl eq_refl eq_refl)
    as (Hrecord & _ & _ & _ & _ & _ & _ & Hstate & _).
  split; [exact Hrecord|exact Hstate].
Defined.

Lemma verifyPdf_failure_reported_witness :
  let w := verifying unreadable valid_answer in
  verify_failure w (str "NotFoundError")
  /\ modal_shows_error (run (verifyPdf (fun s => s)) w)
       (str "Failed to verify PDF: NotFoundError").
Proof.
  intros w.
  assert (Hfail : verify_failure w (str "NotFoundError")).
  { apply (verify_fail_read w unreadable (str "NotFoundError")); reflexivity. }
  split; [exact Hfail|].
  exact (proj1 (verifyPdf_failure_reported (fun s => s) w _ Hfail)).
Defined.

Lemma key_success_switches_view_witness :
  let w' := run (key_handler (Import (str "priv") (str "pub")))
              (with_backend serving blank) in
  hasKey (state w') = true /\ currentPublicKey (state w') = str "pub".
Proof.
  intros w'.
  destruct (key_success_switches_view (Import (str "priv") (str "pub"))
              (with_backend serving blank) (str "pub") eq_refl)
    as (Hstate & _).
  subst w'. rewrite Hstate. split; reflexivity.
Defined.

Lemma checkKeyStatus_agrees_with_engine_witness :
  let d' := runD checkKeyStatus (around (with_backend serving blank)) in
  hasKey (state (page d')) = true /\ journal d' = [].
Proof.
  intros d'.
  destruct (checkKeyStatus_agrees_with_engine
              (around (with_backend serving blank)) true (str "PEM")
              eq_refl (fun _ => eq_refl))
    as (Hhas & _ & Hjournal).
  split; [exact Hhas|exact Hjournal].
Defined.

Lemma checkKeyStatus_refused_witness :
  let d' := runD checkKeyStatus (around (with_backend withholding blank)) in
  journal d'
  = [ConsoleError (str "Failed to check key status:") (str "no key loaded")]
  /\ hasKey (state (page d')) = true.
Proof.
  intros d'.
  destruct (checkKeyStatus_refused
              (around (with_backend withholding blank)) (str "no key loaded")
              (or_intror (conj eq_refl eq_refl)))
    as (Hjournal & _ & _ & Hhas).
  split; [exact Hjournal|exact Hhas].
Defined.

Lemma downloadSignedPdf_without_path_witness :
  let d := holding (str "letter.pdf") (inr None) in
  let d' := runD downloadSignedPdf d in
  page d' = page d
  /\ journal d'
     = [SaveDialog (str "letter_SIGNED.pdf") (str "PDF") [str "pdf"]].
Proof.
  intros d d'.
  destruct (downloadSignedPdf_without_path d (or_introl eq_refl))
    as (Hpage & Hjournal).
  split; [exact Hpage|exact Hjournal].
Defined.

Lemma downloadSignedPdf_writes_stored_bytes_witness :
  let d := holding (str "letter.pdf") (inr (Some (str "/home/ann/out.pdf"))) in
  journal (runD downloadSignedPdf d)
  = [SaveDialog (str "letter_SIGNED.pdf") (str "PDF") [str "pdf"];
     WriteFile (str "/home/ann/out.pdf")
       (Engine.signedPdfBytes Reference.ann_signed)].
Proof.
  intros d.
  exact (proj1 (downloadSignedPdf_writes_stored_bytes d
                  (Engine.signedPdfBytes Reference.ann_signed)
                  (str "/home/ann/out.pdf") eq_refl eq_refl eq_refl eq_refl)).
Defined.

Lemma downloadSignedPdf_failure_reported_witness :
  let d := holding (str "letter.pdf") (inl (str "dialog unavailable")) in
  let d' := runD downloadSignedPdf d in
  modal_shows_error (page d') (str "Failed to save PDF: dialog unavailable")
  /\ state (page d') = state (page d).
Proof.
  intros d d'.
  destruct (downloadSignedPdf_failure_reported d
              (Engine.signedPdfBytes Reference.ann_signed)
              (str "dialog unavailable") _ eq_refl
              (save_fail_dialog d _ (str "dialog unavailable") eq_refl))
    as (_ & Hmodal & Hstate & _).
  split; [exact Hmodal|exact Hstate].
Defined.
